(** * goad-balancer: host canonicalisation and virtual-host routing

    A shallow embedding of [cmd/api/main.go] (the gateway) and of the
    identity echo service, with the Go standard-library functions the two
    programs call ([strings.ToLower], [strings.TrimSpace], [strings.Trim],
    [net.SplitHostPort], the [net/http] request multiplexer) written out
    next to them.

    A Go [string] is a sequence of bytes: it is embedded as [string], whose
    characters are the 256 values of [ascii].  Indices and lengths are Go
    [int]s and are embedded in [Z], so that the [-1] of a failed search and
    the comparisons of the source read as they do in Go. *)

From Stdlib Require Import ZArith Ascii String List Bool Lia.
From stdpp Require Import base gmap strings.

Local Open Scope Z_scope.

(** ** Bytes and strings *)

Definition byte (c : ascii) : Z := Z.of_N (N_of_ascii c).

(** [utf8.RuneSelf]: bytes below it are the ASCII characters. *)
Definition RuneSelf : Z := 128.

Definition len (s : string) : Z := Z.of_nat (String.length s).

(** [s[lo:hi]] *)
Definition slice (s : string) (lo hi : Z) : string :=
  String.substring (Z.to_nat lo) (Z.to_nat (hi - lo)) s.

(** [s[i]], [None] where Go would panic. *)
Definition byteAt (s : string) (i : Z) : option ascii :=
  if i <? 0 then None else String.get (Z.to_nat i) s.

(** [bytealg.IndexByteString]: index of the first [c] in [s], or [-1]. *)
Fixpoint IndexByteString (s : string) (c : ascii) : Z :=
  match s with
  | EmptyString => -1
  | String b s' =>
      if Ascii.eqb b c then 0
      else let i := IndexByteString s' c in
           if i <? 0 then -1 else i + 1
  end.

(** [bytealg.LastIndexByteString]: index of the last [c] in [s], or [-1]. *)
Fixpoint LastIndexByteString (s : string) (c : ascii) : Z :=
  match s with
  | EmptyString => -1
  | String b s' =>
      let i := LastIndexByteString s' c in
      if 0 <=? i then i + 1
      else if Ascii.eqb b c then 0 else -1
  end.

Fixpoint allBytes (p : ascii -> bool) (s : string) : bool :=
  match s with
  | EmptyString => true
  | String c s' => p c && allBytes p s'
  end.

Fixpoint mapBytes (f : ascii -> ascii) (s : string) : string :=
  match s with
  | EmptyString => EmptyString
  | String c s' => String (f c) (mapBytes f s')
  end.

Definition firstByte (s : string) : option ascii :=
  match s with
  | EmptyString => None
  | String c _ => Some c
  end.

Fixpoint lastByte (s : string) : option ascii :=
  match s with
  | EmptyString => None
  | String c EmptyString => Some c
  | String _ s' => lastByte s'
  end.

(** [s] begins, or ends, with a byte of the set. *)
Definition beginsWith (set : ascii -> bool) (s : string) : bool :=
  match firstByte s with Some c => set c | None => false end.

Definition endsWith (set : ascii -> bool) (s : string) : bool :=
  match lastByte s with Some c => set c | None => false end.

(** [s[i] == c] *)
Definition byteIs (s : string) (i : Z) (c : ascii) : bool :=
  match byteAt s i with Some b => Ascii.eqb b c | None => false end.

(** [c] does not occur in [s]. *)
Definition free (c : ascii) (s : string) : bool :=
  allBytes (fun b => negb (Ascii.eqb b c)) s.

(** [t] is a contiguous piece of [s]. *)
Definition substring_of (t s : string) : Prop :=
  exists l r : string, s = l +:+ t +:+ r.

(** ** package strings: the byte-wise parts *)

Definition isASCIIByte (c : ascii) : bool := byte c <? RuneSelf.

Definition isUpperByte (c : ascii) : bool :=
  (byte "A" <=? byte c) && (byte c <=? byte "Z").

(** [c += 'a' - 'A'] on a byte known to be an upper-case letter. *)
Definition lowerByte (c : ascii) : ascii :=
  if isUpperByte c then ascii_of_N (N_of_ascii c + 32) else c.

(** The first loop of [strings.ToLower]. *)
Definition isASCII (s : string) : bool := allBytes isASCIIByte s.
Definition hasUpper (s : string) : bool := negb (allBytes (fun c => negb (isUpperByte c)) s).

(** [strings.asciiSpace] *)
Definition asciiSpace (c : ascii) : bool :=
  let n := byte c in
  (n =? 9) || (n =? 10) || (n =? 11) || (n =? 12) || (n =? 13) || (n =? 32).

(** [strings.asciiSet.contains] for the set made from [cutset]. *)
Fixpoint contains (cutset : string) (c : ascii) : bool :=
  match cutset with
  | EmptyString => false
  | String b cutset' => Ascii.eqb b c || contains cutset' c
  end.

(** [strings.trimLeftASCII]: drop bytes of the set from the front. *)
Fixpoint trimLeftASCII (s : string) (as_ : ascii -> bool) : string :=
  match s with
  | EmptyString => EmptyString
  | String c s' => if as_ c then trimLeftASCII s' as_ else s
  end.

(** [strings.trimRightASCII]: drop bytes of the set from the back. *)
Fixpoint trimRightASCII (s : string) (as_ : ascii -> bool) : string :=
  match s with
  | EmptyString => EmptyString
  | String c s' =>
      match trimRightASCII s' as_ with
      | EmptyString => if as_ c then EmptyString else String c EmptyString
      | r => String c r
      end
  end.

(** ** The Unicode tables of the Go runtime

    [strings.ToLower], [strings.TrimSpace] and [strings.Trim] leave their
    byte-wise paths as soon as they meet a byte that is not ASCII, and
    continue with the rune-wise functions of packages [unicode] and
    [unicode/utf8].  Those tables are part of the Go runtime, not of this
    repository: they are taken as an interface, with the three facts about
    them that the gateway relies on. *)
Class Unicode := {
  (** [strings.Map(unicode.ToLower, s)] *)
  MapToLower : string -> string;
  (** [strings.TrimFunc(s, unicode.IsSpace)] *)
  TrimFuncSpace : string -> string;
  (** [strings.TrimRightFunc(s, unicode.IsSpace)] *)
  TrimRightFuncSpace : string -> string;
  (** [strings.trimLeftUnicode(strings.trimRightUnicode(s, cutset), cutset)] *)
  trimUnicode : string -> string -> string;
  (** no rune is mapped to one of the letters [A] to [Z], and every byte
      of a longer encoding is at least [0x80] *)
  MapToLower_lower : forall s, hasUpper (MapToLower s) = false;
  (** the trimming functions return a slice of their argument *)
  TrimFuncSpace_slice : forall s, substring_of (TrimFuncSpace s) s;
  TrimRightFuncSpace_slice : forall s, substring_of (TrimRightFuncSpace s) s
}.

Section Strings.
Context `{!Unicode}.

(** [strings.ToLower] *)
Definition ToLower (s : string) : string :=
  if isASCII s then
    if hasUpper s then mapBytes lowerByte s else s
  else MapToLower s.

(** The second loop of [strings.TrimSpace], on [s[start:]]: step back over
    ASCII spaces; a byte that is not ASCII hands over to [TrimRightFunc]. *)
Definition trimSpaceRight (s : string) : string :=
  let t := trimRightASCII s asciiSpace in
  match lastByte t with
  | Some c => if isASCIIByte c then t else TrimRightFuncSpace t
  | None => t
  end.

(** [strings.TrimSpace]: the first loop steps over leading ASCII spaces; a
    byte that is not ASCII hands [s[start:]] over to [TrimFunc]. *)
Fixpoint TrimSpace (s : string) : string :=
  match s with
  | EmptyString => EmptyString
  | String c s' =>
      if negb (isASCIIByte c) then TrimFuncSpace s
      else if asciiSpace c then TrimSpace s'
      else trimSpaceRight s
  end.

(** [strings.Trim] *)
Definition Trim (s cutset : string) : string :=
  if String.eqb s "" || String.eqb cutset "" then s
  else if isASCII cutset then
    trimLeftASCII (trimRightASCII s (contains cutset)) (contains cutset)
  else trimUnicode s cutset.

End Strings.

(** ** net.SplitHostPort *)

Record AddrError := { Err : string; Addr : string }.

Definition missingPort : string := "missing port in address".
Definition tooManyColons : string := "too many colons in address".

Definition SplitHostPort (hostport : string) : AddrError + string * string :=
  let addrErr (why : string) : AddrError + string * string :=
    inl {| Err := why; Addr := hostport |} in
  (* The port starts after the last colon. *)
  let i := LastIndexByteString hostport ":" in
  if i <? 0 then addrErr missingPort
  else
    let rest (host : string) (j k : Z) : AddrError + string * string :=
      if 0 <=? IndexByteString (slice hostport j (len hostport)) "[" then
        addrErr "unexpected '[' in address"
      else if 0 <=? IndexByteString (slice hostport k (len hostport)) "]" then
        addrErr "unexpected ']' in address"
      else inr (host, slice hostport (i + 1) (len hostport)) in
    if byteIs hostport 0 "[" then
      (* Expect the first ']' just before the last ':'. *)
      let end_ := IndexByteString hostport "]" in
      if end_ <? 0 then addrErr "missing ']' in address"
      else if end_ + 1 =? len hostport then
        (* There can't be a ':' behind the ']' now. *)
        addrErr missingPort
      else if end_ + 1 =? i then
        (* The expected result. *)
        rest (slice hostport 1 end_) 1 (end_ + 1)
      else
        (* Either ']' isn't followed by a colon, or it is
           followed by a colon that is not the last one. *)
        if byteIs hostport (end_ + 1) ":" then addrErr tooManyColons
        else addrErr missingPort
    else
      let host := slice hostport 0 i in
      if 0 <=? IndexByteString host ":" then addrErr tooManyColons
      else rest host 0 0.

(** ** net/http: requests, responses and the request multiplexer

    What a handler sees of a request, what it answers, and how
    [http.ServeMux] (Go 1.22 patterns) picks the handler.  Of a response
    the status code, the [Content-Type] and the body are kept; other header
    fields are left out. *)

Definition LF : string := String (ascii_of_nat 10) EmptyString.

Module http.

Record Request := {
  Method : string;
  (** [r.URL.EscapedPath()] *)
  Path : string;
  (** [r.Host] *)
  Host : string
}.

Definition StatusOK : Z := 200.
Definition StatusMovedPermanently : Z := 301.
Definition StatusBadRequest : Z := 400.
Definition StatusNotFound : Z := 404.
Definition StatusMethodNotAllowed : Z := 405.

Section Responses.
(** [J]: the values a handler encodes as JSON. *)
Context {J : Type}.

Inductive Payload :=
  | Text (s : string)
  (** [json.NewEncoder(w).Encode(v)] *)
  | JSON (v : J)
  (** the anchor that [http.Redirect] writes around its target *)
  | Anchor.

Record Response := {
  StatusCode : Z;
  ContentType : option string;
  Body : Payload
}.

(** [w.WriteHeader(code)], and nothing written after it. *)
Definition WriteHeader (code : Z) : Response :=
  {| StatusCode := code; ContentType := None; Body := Text "" |}.

(** [http.Error(w, error, code)] *)
Definition Error (error : string) (code : Z) : Response :=
  {| StatusCode := code;
     ContentType := Some "text/plain; charset=utf-8";
     Body := Text (error +:+ LF) |}.

(** [http.NotFound(w, r)] *)
Definition NotFound : Response := Error "404 page not found" StatusNotFound.

(** [http.Redirect(w, r, url, code)], the request carrying no
    [Content-Type] of its own; the [Location] is a header field. *)
Definition Redirect (r : Request) (code : Z) : Response :=
  {| StatusCode := code;
     ContentType :=
       if String.eqb (Method r) "GET" || String.eqb (Method r) "HEAD"
       then Some "text/html; charset=utf-8" else None;
     Body := if String.eqb (Method r) "GET" then Anchor else Text "" |}.

End Responses.
Arguments Payload : clear implicits.
Arguments Response : clear implicits.

(** *** Paths *)

Fixpoint splitOn (sep : ascii) (s : string) : list string :=
  match s with
  | EmptyString => [EmptyString]
  | String c s' =>
      if Ascii.eqb c sep then EmptyString :: splitOn sep s'
      else
        match splitOn sep s' with
        | x :: xs => String c x :: xs
        | [] => [String c EmptyString]
        end
  end.

Fixpoint join (sep : string) (elems : list string) : string :=
  match elems with
  | [] => EmptyString
  | [x] => x
  | x :: xs => x +:+ sep +:+ join sep xs
  end.

Definition HasPrefix (s prefix : string) : bool := String.prefix prefix s.

(** [strings.HasSuffix(s, "/")] *)
Definition HasSuffixSlash (s : string) : bool := endsWith (Ascii.eqb "/") s.

(** [strings.Count(s, "/")] *)
Fixpoint CountSlash (s : string) : Z :=
  match s with
  | EmptyString => 0
  | String c s' => (if Ascii.eqb c "/" then 1 else 0) + CountSlash s'
  end.

(** One element of a rooted path met by [path.Clean]: empty and [.] elements
    are dropped, [..] removes the element before it (none at the root). *)
Definition cleanStep (out : list string) (elem : string) : list string :=
  if String.eqb elem "" || String.eqb elem "." then out
  else if String.eqb elem ".." then removelast out
  else out ++ [elem].

(** [path.Clean] on a rooted path, the only kind [cleanPath] passes. *)
Definition Clean (path : string) : string :=
  "/" +:+ join "/" (fold_left cleanStep (splitOn "/" (slice path 1 (len path))) []).

(** [http.cleanPath] *)
Definition cleanPath (p : string) : string :=
  if String.eqb p "" then "/"
  else
    let p := if byteIs p 0 "/" then p else "/" +:+ p in
    let np := Clean p in
    if HasSuffixSlash p && negb (String.eqb np "/") then
      if (len p =? len np + 1) && HasPrefix p np then p else np +:+ "/"
    else np.

Definition ishex (c : ascii) : bool :=
  let n := byte c in
  ((48 <=? n) && (n <=? 57)) || ((97 <=? n) && (n <=? 102)) || ((65 <=? n) && (n <=? 70)).

Definition unhex (c : ascii) : Z :=
  let n := byte c in
  if (48 <=? n) && (n <=? 57) then n - 48
  else if (97 <=? n) && (n <=? 102) then n - 97 + 10
  else if (65 <=? n) && (n <=? 70) then n - 65 + 10
  else 0.

(** [url.PathUnescape]: [None] is its [EscapeError]. *)
Fixpoint PathUnescape (s : string) : option string :=
  match s with
  | EmptyString => Some EmptyString
  | String "%" (String a (String b s')) =>
      if ishex a && ishex b then
        option_map (String (ascii_of_N (Z.to_N (unhex a * 16 + unhex b)))) (PathUnescape s')
      else None
  | String "%" _ => None
  | String c s' => option_map (String c) (PathUnescape s')
  end.

(** [http.pathUnescape]: an invalidly escaped path is used as it is. *)
Definition pathUnescape (path : string) : string :=
  match PathUnescape path with
  | Some u => u
  | None => path
  end.

(** The segments that repeated calls of [http.firstSegment] take off a
    path: the pieces between slashes, unescaped, a trailing slash being the
    segment ["/"]. *)
Fixpoint segmentsOf (pieces : list string) : list string :=
  match pieces with
  | [] => []
  | [EmptyString] => ["/"]
  | piece :: pieces' => pathUnescape piece :: segmentsOf pieces'
  end.

Definition pathSegments (path : string) : list string :=
  if String.eqb path "" then []
  else segmentsOf (splitOn "/" (slice path 1 (len path))).

(** *** Patterns

    A pattern is a method (empty for any) and the segments of its path:
    literals, and the anonymous multi wildcard a trailing slash stands for.
    The programs register no host and no named wildcard. *)

Inductive segment := lit (s : string) | multi.

Record pattern := { method : string; segments : list segment }.

Fixpoint matchSegments (segs : list segment) (path : list string) : bool :=
  match segs, path with
  | [], [] => true
  | multi :: _, _ :: _ => true
  | lit s :: segs', seg :: path' => String.eqb s seg && matchSegments segs' path'
  | _, _ => false
  end.

Definition lastIsMulti (p : pattern) : bool :=
  match List.last (segments p) (lit "") with
  | multi => true
  | lit _ => false
  end.

Section ServeMux.
(** [H]: the handlers registered by the program. *)
Context {H : Type}.

Definition routingNode : Type := pattern * H.

Definition literals (n : routingNode) : nat :=
  length (List.filter (fun sg => match sg with lit _ => true | multi => false end)
            (segments (fst n))).

(** Among the patterns that match, the routing tree reaches the one with
    the most literal segments first: at each node it tries the literal
    child before the multi wildcard. *)
Fixpoint mostSpecific (best : option routingNode) (ns : list routingNode) : option routingNode :=
  match ns with
  | [] => best
  | n :: ns' =>
      match best with
      | Some b =>
          if (literals b <? literals n)%nat
          then mostSpecific (Some n) ns' else mostSpecific best ns'
      | None => mostSpecific (Some n) ns'
      end
  end.

(** [routingNode.matchPath] below the node of method [m]. *)
Definition matchPath (mux : list routingNode) (m path : string) : option routingNode :=
  mostSpecific None
    (List.filter (fun n => String.eqb (method (fst n)) m &&
                      matchSegments (segments (fst n)) (pathSegments path)) mux).

(** [routingNode.matchMethodAndPath] *)
Definition matchMethodAndPath (mux : list routingNode) (m path : string) : option routingNode :=
  match matchPath mux m path with
  | Some n => Some n
  | None =>
      match (if String.eqb m "HEAD" then matchPath mux "GET" path else None) with
      | Some n => Some n
      | None => matchPath mux "" path
      end
  end.

(** [http.exactMatch] *)
Definition exactMatch (n : option routingNode) (path : string) : bool :=
  match n with
  | None => false
  | Some n =>
      if negb (lastIsMulti (fst n)) then true
      else if negb (String.eqb path "") && negb (HasSuffixSlash path) then false
      else Z.of_nat (length (segments (fst n))) =? CountSlash path
  end.

(** [ServeMux.matchOrRedirect]; [withURL] is [u != nil], and the second
    component tells whether a redirect to the path with a trailing slash is
    returned. *)
Definition matchOrRedirect (mux : list routingNode) (m path : string) (withURL : bool)
  : option routingNode * bool :=
  let n := matchMethodAndPath mux m path in
  if negb (exactMatch n path) && withURL && negb (HasSuffixSlash path) then
    let path' := path +:+ "/" in
    if exactMatch (matchMethodAndPath mux m path') path' then (None, true)
    else (n, false)
  else (n, false).

(** The methods of [ServeMux.matchingMethods]: those of the patterns that
    match the path, [HEAD] with [GET] (net/http sorts them and drops
    repetitions for the [Allow] field). *)
Definition matchingMethods (mux : list routingNode) (path : string) : list string :=
  let matching (path : string) :=
    List.filter (fun n => matchSegments (segments (fst n)) (pathSegments path)) mux in
  let ns := matching path ++ (if HasSuffixSlash path then [] else matching (path +:+ "/")) in
  flat_map (fun n : routingNode =>
              if String.eqb (method (fst n)) "GET" then ["GET"; "HEAD"]
              else [method (fst n)]) ns.

Inductive Handler :=
  | registered (h : H)
  | RedirectHandler (code : Z)
  | MethodNotAllowedHandler (allow : list string)
  | NotFoundHandler.

(** [ServeMux.findHandler] *)
Definition findHandler (mux : list routingNode) (r : Request) : Handler :=
  let answer (n : option routingNode) (path : string) : Handler :=
    match n with
    | Some n => registered (snd n)
    | None =>
        match matchingMethods mux path with
        | [] => NotFoundHandler
        | allowedMethods => MethodNotAllowedHandler allowedMethods
        end
    end in
  if String.eqb (Method r) "CONNECT" then
    (* CONNECT requests are not canonicalized. *)
    match matchOrRedirect mux (Method r) (Path r) true with
    | (_, true) => RedirectHandler StatusMovedPermanently
    | (_, false) => answer (fst (matchOrRedirect mux (Method r) (Path r) false)) (Path r)
    end
  else
    let path := cleanPath (Path r) in
    match matchOrRedirect mux (Method r) path true with
    | (_, true) => RedirectHandler StatusMovedPermanently
    | (n, false) =>
        (* Redirect to cleaned path. *)
        if negb (String.eqb path (Path r)) then RedirectHandler StatusMovedPermanently
        else answer n path
    end.

End ServeMux.
Arguments Handler : clear implicits.

(** [r.RequestURI == "*"].  The request target [*] is the one target that
    the server parses to the path [*] ([url.ParseRequestURI]: every other
    target gives a path that is empty or begins with a slash), and
    [URL.EscapedPath] returns [*] for that path only: the test reads the
    path. *)
Definition RequestURIIsAsterisk (r : Request) : bool := String.eqb (Path r) "*".

(** [ServeMux.ServeHTTP]: the target [*] is a bad request; otherwise the
    answer of the handler found, [serve] being what the registered handlers
    do. *)
Definition ServeHTTP {H J : Type} (serve : H -> Request -> Response J)
    (mux : list (pattern * H)) (r : Request) : Response J :=
  if RequestURIIsAsterisk r then WriteHeader StatusBadRequest
  else
    match findHandler mux r with
    | registered h => serve h r
    | RedirectHandler code => Redirect r code
    | MethodNotAllowedHandler _ => Error "Method Not Allowed" StatusMethodNotAllowed
    | NotFoundHandler => NotFound
    end.

End http.

(** ** cmd/api: the gateway *)

Record healthResponse := { Status : string; Time : string }.

Record hostResponse := { Host : string; Route : string }.

Inductive apiJSON := healthJSON (v : healthResponse) | hostJSON (v : hostResponse).

(** The handlers [newHandler] registers, by their patterns. *)
Inductive apiHandler := GET_health | GET_root.

(** The literal map of [newHandler]. *)
Definition hostRoutes : gmap string string :=
  {[ "mango.com" := "site-mango"; "apple.com" := "site-apple" ]}.

Section Gateway.
Context `{!Unicode}.

(** canonicalHost strips an optional :port and normalises case;
    it also tolerates bracketed IPv6 hosts like "[::1]:8080". *)
Definition canonicalHost (h : string) : string :=
  let h := TrimSpace (ToLower h) in
  if String.eqb h "" then ""
  else
    (* if it looks like host:port or [v6]:port, split *)
    match SplitHostPort h with
    | inr (host, _) => Trim host "[]"
    (* otherwise it may already be a host *)
    | inl _ => Trim h "[]"
    end.

(** The handler of ["GET /health"]; [now] is
    [time.Now().Format(time.RFC3339Nano)]. *)
Definition healthHandler (now : string) (r : http.Request) : http.Response apiJSON :=
  {| http.StatusCode := http.StatusOK;
     http.ContentType := Some "application/json";
     http.Body := http.JSON (healthJSON {| Status := "ok"; Time := now |}) |}.

(** The handler of ["GET /"]. *)
Definition rootHandler (r : http.Request) : http.Response apiJSON :=
  let host := canonicalHost (http.Host r) in
  match hostRoutes !! host with
  | None => http.NotFound
  | Some route =>
      {| http.StatusCode := http.StatusOK;
         http.ContentType := Some "application/json";
         http.Body := http.JSON (hostJSON {| Host := host; Route := route |}) |}
  end.

(** The multiplexer built by [newHandler]. *)
Definition mux : list (http.pattern * apiHandler) :=
  [ ({| http.method := "GET"; http.segments := [http.lit "health"] |}, GET_health);
    ({| http.method := "GET"; http.segments := [http.multi] |}, GET_root) ].

Definition serve (now : string) (h : apiHandler) : http.Request -> http.Response apiJSON :=
  match h with
  | GET_health => healthHandler now
  | GET_root => rootHandler
  end.

Definition newHandler (now : string) (r : http.Request) : http.Response apiJSON :=
  http.ServeHTTP (serve now) mux r.

End Gateway.

(** ** app: the identity echo service *)

Module app.

(** [os.Getenv]: the value of the variable, empty when it is not set. *)
Definition Getenv (environ : gmap string string) (key : string) : string :=
  default "" (environ !! key).

(** The name [main] settles on. *)
Definition appName (environ : gmap string string) : string :=
  let appName := Getenv environ "APP" in
  if String.eqb appName "" then "unknown" else appName.

(** The handler of ["GET /"]: its one statement is
    [fmt.Printf("This is the %s application", appName)], which writes to the
    standard output of the process; nothing is written to [w], so the
    server answers 200 with an empty body.  The standard output is threaded
    through. *)
Definition rootHandler (appName : string) (stdout : string) (r : http.Request)
  : string * http.Response Empty_set :=
  (stdout +:+ "This is the " +:+ appName +:+ " application",
   {| http.StatusCode := http.StatusOK;
      http.ContentType := None;
      http.Body := http.Text "" |}).

Definition mux : list (http.pattern * unit) :=
  [ ({| http.method := "GET"; http.segments := [http.multi] |}, tt) ].

(** One request served by the process started in [environ]: the
    multiplexer's [ServeHTTP], with the standard output threaded through. *)
Definition main (environ : gmap string string) (stdout : string) (r : http.Request)
  : string * http.Response Empty_set :=
  if http.RequestURIIsAsterisk r then (stdout, http.WriteHeader http.StatusBadRequest)
  else
    match http.findHandler mux r with
    | http.registered _ => rootHandler (appName environ) stdout r
    | http.RedirectHandler code => (stdout, http.Redirect r code)
    | http.MethodNotAllowedHandler _ =>
        (stdout, http.Error "Method Not Allowed" http.StatusMethodNotAllowed)
    | http.NotFoundHandler => (stdout, http.NotFound)
    end.

End app.

(** ** The statements under examination *)

Definition isBracket : ascii -> bool := contains "[]".

(** [s] begins or ends with a byte of the set. *)
Definition hasOuter (set : ascii -> bool) (s : string) : bool :=
  beginsWith set s || endsWith set s.

(** What [canonicalHost] hands to [strings.Trim]: the host of a successful
    split, the whole string otherwise. *)
Definition hostPart (h : string) : string :=
  match SplitHostPort h with
  | inr (host, _) => host
  | inl _ => h
  end.

Definition isHostPort (h : string) : bool :=
  match SplitHostPort h with
  | inr _ => true
  | inl _ => false
  end.

(** The specification's wording of the last step: strip a single pair of
    surrounding brackets, if present. *)
Definition stripBracketPair (s : string) : string :=
  match firstByte s, lastByte s with
  | Some "["%char, Some "]"%char =>
      if 2 <=? len s then slice s 1 (len s - 1) else s
  | _, _ => s
  end.

(** ** Strings: append, slices, byte-wise predicates *)

Lemma append_nil_r (s : string) : s +:+ "" = s.
Proof.
  induction s as [|c s IH]; [reflexivity|].
  change (String c (s +:+ "") = String c s). now rewrite IH.
Qed.

Lemma append_cons (c : ascii) (s t : string) : String c s +:+ t = String c (s +:+ t).
Proof. reflexivity. Qed.

Lemma append_assoc (s t u : string) : (s +:+ t) +:+ u = s +:+ t +:+ u.
Proof.
  induction s as [|c s IH]; [reflexivity|].
  rewrite !append_cons. now rewrite IH.
Qed.

Lemma length_append (s t : string) :
  String.length (s +:+ t) = (String.length s + String.length t)%nat.
Proof.
  induction s as [|c s IH]; [reflexivity|].
  rewrite append_cons. simpl. now rewrite IH.
Qed.

Lemma length_zero (s : string) : String.length s = 0%nat -> s = "".
Proof. destruct s; [reflexivity|discriminate]. Qed.

Lemma allBytes_append (p : ascii -> bool) (s t : string) :
  allBytes p (s +:+ t) = allBytes p s && allBytes p t.
Proof.
  induction s as [|c s IH]; [reflexivity|].
  rewrite append_cons. simpl. rewrite IH. now rewrite andb_assoc.
Qed.

Lemma substring_of_refl (s : string) : substring_of s s.
Proof. exists "", "". now rewrite append_nil_r. Qed.

Lemma substring_of_trans (s t u : string) :
  substring_of s t -> substring_of t u -> substring_of s u.
Proof.
  intros (l1 & r1 & ->) (l2 & r2 & ->).
  exists (l2 +:+ l1), (r1 +:+ r2). now rewrite !append_assoc.
Qed.

Lemma substring_of_cons (c : ascii) (t s : string) :
  substring_of t s -> substring_of t (String c s).
Proof. intros (l & r & ->). now exists (String c l), r. Qed.

Lemma substring_of_length (t s : string) :
  substring_of t s -> (String.length t <= String.length s)%nat.
Proof. intros (l & r & ->). rewrite !length_append. lia. Qed.

(** A piece as long as the whole is the whole. *)
Lemma substring_of_full (t s : string) :
  substring_of t s -> (String.length s <= String.length t)%nat -> t = s.
Proof.
  intros (l & r & ->) Hlen. rewrite !length_append in Hlen.
  assert (l = "") as -> by (apply length_zero; lia).
  assert (r = "") as -> by (apply length_zero; lia).
  now rewrite append_nil_r.
Qed.

Lemma allBytes_substring_of (p : ascii -> bool) (t s : string) :
  substring_of t s -> allBytes p s = true -> allBytes p t = true.
Proof.
  intros (l & r & ->). rewrite !allBytes_append.
  intros H. apply andb_prop in H as [_ H]. now apply andb_prop in H as [H _].
Qed.

Lemma substring_prefix (m : nat) (s : string) :
  exists r : string, s = String.substring 0 m s +:+ r.
Proof.
  revert m. induction s as [|c s IH]; intros m.
  - exists "". now destruct m.
  - destruct m as [|m]; simpl; [now exists (String c s)|].
    destruct (IH m) as (r & E). exists r. rewrite append_cons. now f_equal.
Qed.

Lemma substring_substring_of (n m : nat) (s : string) :
  substring_of (String.substring n m s) s.
Proof.
  revert n. induction s as [|c s IH]; intros n.
  - destruct n, m; apply substring_of_refl.
  - destruct n as [|n].
    + destruct (substring_prefix m (String c s)) as (r & E). now exists "", r.
    + simpl. apply substring_of_cons, IH.
Qed.

Lemma length_substring (n m : nat) (s : string) :
  (String.length (String.substring n m s) <= m)%nat.
Proof.
  revert n m. induction s as [|c s IH]; intros n m.
  - destruct n, m; simpl; lia.
  - destruct n as [|n]; simpl; [|apply IH].
    destruct m as [|m]; simpl; [lia|]. specialize (IH 0%nat m). lia.
Qed.

Lemma slice_substring_of (s : string) (lo hi : Z) : substring_of (slice s lo hi) s.
Proof. apply substring_substring_of. Qed.

Lemma len_slice (s : string) (lo hi : Z) : len (slice s lo hi) <= Z.max 0 (hi - lo).
Proof.
  unfold len, slice.
  pose proof (length_substring (Z.to_nat lo) (Z.to_nat (hi - lo)) s). lia.
Qed.

Lemma IndexByteString_bound (s : string) (c : ascii) :
  -1 <= IndexByteString s c < len s.
Proof.
  unfold len. induction s as [|b s IH]; simpl; [lia|].
  destruct (Ascii.eqb b c); [lia|].
  destruct (IndexByteString s c <? 0) eqn:E; lia.
Qed.

Lemma LastIndexByteString_bound (s : string) (c : ascii) :
  -1 <= LastIndexByteString s c < len s.
Proof.
  unfold len. induction s as [|b s IH]; simpl; [lia|].
  destruct (0 <=? LastIndexByteString s c) eqn:E; [lia|].
  destruct (Ascii.eqb b c); lia.
Qed.

Lemma byteAt_in_range (s : string) (i : Z) :
  0 <= i < len s -> exists c : ascii, byteAt s i = Some c.
Proof.
  unfold byteAt, len. intros Hi.
  destruct (i <? 0) eqn:E; [lia|].
  assert (Hn : (Z.to_nat i < String.length s)%nat) by lia.
  clear -Hn. revert Hn. generalize (Z.to_nat i) as n.
  induction s as [|b s IH]; intros [|n] Hn; simpl in *; try lia; eauto.
  apply IH. lia.
Qed.

(** ** Trimming a set of bytes *)

Section Trimming.
Variable set : ascii -> bool.

Lemma lastByte_cons (c : ascii) (s : string) :
  lastByte (String c s) = match s with EmptyString => Some c | _ => lastByte s end.
Proof. now destruct s. Qed.

Lemma endsWith_cons (c : ascii) (s : string) :
  endsWith set (String c s) = match s with EmptyString => set c | _ => endsWith set s end.
Proof. unfold endsWith. rewrite lastByte_cons. now destruct s. Qed.

Lemma trimLeftASCII_split (s : string) :
  exists l : string, s = l +:+ trimLeftASCII s set /\ allBytes set l = true.
Proof.
  induction s as [|c s (l & E & Hl)]; [now exists ""|].
  simpl. destruct (set c) eqn:Hc; [|now exists ""].
  exists (String c l). rewrite append_cons, <- E. simpl. now rewrite Hc.
Qed.

Lemma trimRightASCII_split (s : string) :
  exists r : string, s = trimRightASCII s set +:+ r /\ allBytes set r = true.
Proof.
  induction s as [|c s (r & E & Hr)]; [now exists ""|].
  simpl. destruct (trimRightASCII s set) as [|b t] eqn:Ht.
  - destruct (set c) eqn:Hc.
    + exists (String c r). simpl in E. subst s. simpl. now rewrite Hc.
    + exists r. now rewrite append_cons, <- E.
  - exists r. now rewrite append_cons, <- E.
Qed.

Lemma beginsWith_trimLeftASCII (s : string) : beginsWith set (trimLeftASCII s set) = false.
Proof.
  induction s as [|c s IH]; [reflexivity|].
  simpl. destruct (set c) eqn:Hc; [exact IH|]. unfold beginsWith. simpl. exact Hc.
Qed.

Lemma endsWith_trimRightASCII (s : string) : endsWith set (trimRightASCII s set) = false.
Proof.
  induction s as [|c s IH]; [reflexivity|].
  simpl. destruct (trimRightASCII s set) as [|b t] eqn:Ht.
  - destruct (set c) eqn:Hc; [reflexivity|]. unfold endsWith. simpl. exact Hc.
  - rewrite endsWith_cons. exact IH.
Qed.

Lemma trimLeftASCII_id (s : string) : beginsWith set s = false -> trimLeftASCII s set = s.
Proof. destruct s as [|c s]; [reflexivity|]. unfold beginsWith. simpl. now intros ->. Qed.

Lemma trimRightASCII_id (s : string) : endsWith set s = false -> trimRightASCII s set = s.
Proof.
  induction s as [|c s IH]; [reflexivity|].
  rewrite endsWith_cons. simpl. destruct s as [|b t].
  - simpl. now intros ->.
  - intros H. now rewrite (IH H).
Qed.

Lemma endsWith_trimLeftASCII (s : string) :
  endsWith set s = false -> endsWith set (trimLeftASCII s set) = false.
Proof.
  induction s as [|c s IH]; [reflexivity|].
  simpl. destruct (set c) eqn:Hc; [|trivial].
  rewrite endsWith_cons. destruct s as [|b t]; [reflexivity|]. exact IH.
Qed.

Lemma beginsWith_trimRightASCII (s : string) :
  beginsWith set s = false -> beginsWith set (trimRightASCII s set) = false.
Proof.
  destruct s as [|c s]; [reflexivity|].
  unfold beginsWith. simpl. intros Hc.
  destruct (trimRightASCII s set); [rewrite Hc|]; simpl; trivial.
Qed.

Lemma trimLeftASCII_substring_of (s : string) : substring_of (trimLeftASCII s set) s.
Proof.
  destruct (trimLeftASCII_split s) as (l & E & _).
  exists l, "". now rewrite append_nil_r.
Qed.

Lemma trimRightASCII_substring_of (s : string) : substring_of (trimRightASCII s set) s.
Proof. destruct (trimRightASCII_split s) as (r & E & _). now exists "", r. Qed.

(** Right then left, as [strings.Trim] does. *)
Lemma hasOuter_trim (s : string) :
  hasOuter set (trimLeftASCII (trimRightASCII s set) set) = false.
Proof.
  unfold hasOuter. rewrite beginsWith_trimLeftASCII. simpl.
  apply endsWith_trimLeftASCII, endsWith_trimRightASCII.
Qed.

Lemma trim_id (s : string) :
  hasOuter set s = false -> trimLeftASCII (trimRightASCII s set) set = s.
Proof.
  unfold hasOuter. intros H. apply orb_false_elim in H as [Hb He].
  rewrite (trimRightASCII_id _ He). now apply trimLeftASCII_id.
Qed.

Lemma trim_split (s : string) :
  exists l r : string,
    s = l +:+ trimLeftASCII (trimRightASCII s set) set +:+ r /\
    allBytes set l = true /\ allBytes set r = true.
Proof.
  destruct (trimRightASCII_split s) as (r & Er & Hr).
  destruct (trimLeftASCII_split (trimRightASCII s set)) as (l & El & Hl).
  exists l, r. split; [|now split].
  rewrite <- append_assoc, <- El. exact Er.
Qed.

(** Left then right, as [strings.TrimSpace] does. *)
Lemma hasOuter_trim' (s : string) :
  hasOuter set (trimRightASCII (trimLeftASCII s set) set) = false.
Proof.
  unfold hasOuter. rewrite endsWith_trimRightASCII, orb_false_r.
  apply beginsWith_trimRightASCII, beginsWith_trimLeftASCII.
Qed.

Lemma trim_id' (s : string) :
  hasOuter set s = false -> trimRightASCII (trimLeftASCII s set) set = s.
Proof.
  unfold hasOuter. intros H. apply orb_false_elim in H as [Hb He].
  rewrite (trimLeftASCII_id _ Hb). now apply trimRightASCII_id.
Qed.

End Trimming.

(** ** net.SplitHostPort: what a successful split returns *)

Lemma SplitHostPort_host (s host port : string) :
  SplitHostPort s = inr (host, port) -> substring_of host s /\ len host < len s.
Proof.
  unfold SplitHostPort.
  pose proof (LastIndexByteString_bound s ":") as Hi.
  pose proof (IndexByteString_bound s "]") as He.
  pose proof (len_slice s 1 (IndexByteString s "]")) as H1.
  pose proof (len_slice s 0 (LastIndexByteString s ":")) as H0.
  intros H.
  repeat match type of H with
         | context [if ?b then _ else _] => destruct b eqn:?
         end;
    try discriminate; injection H as <- <-;
    (split; [apply slice_substring_of | lia]).
Qed.

(** The two indexed reads of [net.SplitHostPort] are within the string:
    the function does not panic. *)
Lemma SplitHostPort_reads_in_range (s : string) :
  (0 <= LastIndexByteString s ":" -> exists c, byteAt s 0 = Some c) /\
  (0 <= IndexByteString s "]" -> IndexByteString s "]" + 1 <> len s ->
   exists c, byteAt s (IndexByteString s "]" + 1) = Some c).
Proof.
  pose proof (LastIndexByteString_bound s ":").
  pose proof (IndexByteString_bound s "]").
  split; intros; apply byteAt_in_range; lia.
Qed.

Lemma substring_full (s : string) : String.substring 0 (String.length s) s = s.
Proof. induction s as [|c s IH]; [reflexivity|]. simpl. now rewrite IH. Qed.

Lemma slice_tail (c : ascii) (s : string) : slice (String c s) 1 (len (String c s)) = s.
Proof.
  unfold slice, len.
  replace (Z.to_nat (Z.of_nat (String.length (String c s)) - 1)) with (String.length s)
    by (simpl String.length; lia).
  change (Z.to_nat 1) with 1%nat. simpl. apply substring_full.
Qed.

Lemma IndexByteString_free (s : string) (c : ascii) :
  IndexByteString s c < 0 -> free c s = true.
Proof.
  unfold free. induction s as [|b s IH]; [reflexivity|]. simpl.
  destruct (Ascii.eqb b c); [lia|].
  pose proof (IndexByteString_bound s c).
  destruct (Z.ltb_spec (IndexByteString s c) 0); [intros _; now apply IH|lia].
Qed.

(** Nothing before the first occurrence. *)
Lemma free_before_index (s : string) (c : ascii) (n : nat) :
  Z.of_nat n <= IndexByteString s c -> free c (String.substring 0 n s) = true.
Proof.
  unfold free. revert n. induction s as [|b s IH]; intros n; [now destruct n|].
  destruct n as [|n]; [reflexivity|]. simpl.
  destruct (Ascii.eqb b c); [lia|]. simpl.
  pose proof (IndexByteString_bound s c).
  destruct (Z.ltb_spec (IndexByteString s c) 0); [lia|].
  intros Hn. apply IH. lia.
Qed.

(** net.SplitHostPort keeps brackets off the returned host: after a
    successful split [strings.Trim(host, "[]")] has nothing to trim. *)
Lemma SplitHostPort_host_free (s host port : string) :
  SplitHostPort s = inr (host, port) -> free "[" host = true /\ free "]" host = true.
Proof.
  unfold SplitHostPort. intros H.
  destruct s as [|c s]; [discriminate|].
  destruct (LastIndexByteString (String c s) ":" <? 0); [discriminate|].
  change (byteIs (String c s) 0 "[") with (Ascii.eqb c "[") in H.
  rewrite slice_tail in H.
  assert (Hwhole : slice (String c s) 0 (len (String c s)) = String c s).
  { unfold slice, len. rewrite Z.sub_0_r, Nat2Z.id. apply substring_full. }
  destruct (Ascii.eqb_spec c "[") as [->|Hc].
  - set (e := IndexByteString (String "[" s) "]") in *.
    destruct (Z.ltb_spec e 0) as [|He]; [discriminate|].
    destruct (e + 1 =? len (String "[" s)); [discriminate|].
    destruct (e + 1 =? LastIndexByteString (String "[" s) ":"); [|now destruct (byteIs _ _ _)].
    destruct (Z.leb_spec 0 (IndexByteString s "[")) as [|Hopen]; [discriminate|].
    destruct (0 <=? _); [discriminate|]. injection H as <- _.
    assert (Hhost : slice (String "[" s) 1 e = String.substring 0 (Z.to_nat (e - 1)) s)
      by reflexivity.
    rewrite Hhost. split.
    + eapply allBytes_substring_of;
        [apply substring_substring_of|exact (IndexByteString_free _ _ Hopen)].
    + apply free_before_index. subst e. simpl in He |- *.
      destruct (Z.ltb_spec (IndexByteString s "]") 0); lia.
  - destruct (0 <=? IndexByteString (slice (String c s) 0 _) ":"); [discriminate|].
    rewrite Hwhole in H.
    destruct (Z.leb_spec 0 (IndexByteString (String c s) "[")) as [|Hopen]; [discriminate|].
    destruct (Z.leb_spec 0 (IndexByteString (String c s) "]")) as [|Hclose]; [discriminate|].
    injection H as <- _.
    split; (eapply allBytes_substring_of; [apply slice_substring_of|]);
      [exact (IndexByteString_free _ _ Hopen)|exact (IndexByteString_free _ _ Hclose)].
Qed.

Lemma hostPart_substring_of (h : string) : substring_of (hostPart h) h.
Proof.
  unfold hostPart. destruct (SplitHostPort h) as [e|[host port]] eqn:E.
  - apply substring_of_refl.
  - now apply SplitHostPort_host in E as [? _].
Qed.

Lemma allBytes_lastByte (p : ascii -> bool) (s : string) (c : ascii) :
  allBytes p s = true -> lastByte s = Some c -> p c = true.
Proof.
  induction s as [|b s IH]; [discriminate|].
  simpl allBytes. intros Hp. apply andb_prop in Hp as [Hb Hs].
  rewrite lastByte_cons. destruct s as [|b' s'].
  - now intros [= <-].
  - now apply IH.
Qed.

Lemma hasUpper_substring_of (t s : string) :
  substring_of t s -> hasUpper s = false -> hasUpper t = false.
Proof.
  unfold hasUpper. intros Hsub Hs. apply negb_false_iff in Hs.
  apply negb_false_iff. eapply allBytes_substring_of; eassumption.
Qed.

(** ** canonicalHost *)

Section CanonicalHost.
Context `{!Unicode}.

Lemma isUpperByte_lowerByte (c : ascii) : isUpperByte (lowerByte c) = false.
Proof. destruct c as [[] [] [] [] [] [] [] []]; reflexivity. Qed.

Lemma isASCIIByte_lowerByte (c : ascii) : isASCIIByte (lowerByte c) = isASCIIByte c.
Proof. destruct c as [[] [] [] [] [] [] [] []]; reflexivity. Qed.

Lemma hasUpper_mapBytes_lowerByte (s : string) : hasUpper (mapBytes lowerByte s) = false.
Proof.
  unfold hasUpper. apply negb_false_iff.
  induction s as [|c s IH]; [reflexivity|].
  simpl. now rewrite isUpperByte_lowerByte, IH.
Qed.

Lemma isASCII_mapBytes_lowerByte (s : string) :
  isASCII (mapBytes lowerByte s) = isASCII s.
Proof.
  unfold isASCII. induction s as [|c s IH]; [reflexivity|].
  simpl. now rewrite isASCIIByte_lowerByte, IH.
Qed.

Lemma hasUpper_ToLower (s : string) : hasUpper (ToLower s) = false.
Proof.
  unfold ToLower. destruct (isASCII s); [|apply MapToLower_lower].
  destruct (hasUpper s) eqn:E; [apply hasUpper_mapBytes_lowerByte|exact E].
Qed.

Lemma isASCII_ToLower (s : string) : isASCII s = true -> isASCII (ToLower s) = true.
Proof.
  unfold ToLower. intros E. rewrite E.
  destruct (hasUpper s); [now rewrite isASCII_mapBytes_lowerByte|exact E].
Qed.

Lemma ToLower_lower (s : string) : isASCII s = true -> hasUpper s = false -> ToLower s = s.
Proof. unfold ToLower. now intros -> ->. Qed.

Lemma trimSpaceRight_substring_of (s : string) : substring_of (trimSpaceRight s) s.
Proof.
  unfold trimSpaceRight.
  pose proof (trimRightASCII_substring_of asciiSpace s) as Ht.
  destruct (lastByte (trimRightASCII s asciiSpace)) as [c|]; [|exact Ht].
  destruct (isASCIIByte c); [exact Ht|].
  eapply substring_of_trans; [apply TrimRightFuncSpace_slice|exact Ht].
Qed.

Lemma TrimSpace_substring_of (s : string) : substring_of (TrimSpace s) s.
Proof.
  induction s as [|c s IH]; [apply substring_of_refl|].
  simpl. destruct (isASCIIByte c); simpl.
  - destruct (asciiSpace c).
    + now apply substring_of_cons.
    + apply trimSpaceRight_substring_of.
  - apply TrimFuncSpace_slice.
Qed.

(** On ASCII strings [strings.TrimSpace] stays on its byte-wise path. *)
Lemma TrimSpace_ASCII (s : string) :
  isASCII s = true ->
  TrimSpace s = trimRightASCII (trimLeftASCII s asciiSpace) asciiSpace.
Proof.
  unfold isASCII. induction s as [|c s IH]; [reflexivity|].
  intros Hs. pose proof Hs as Hcs. simpl in Hs. apply andb_prop in Hs as [Hc Hs].
  cbn [TrimSpace trimLeftASCII]. rewrite Hc. simpl negb. cbv iota.
  destruct (asciiSpace c) eqn:Hsp; [now apply IH|].
  unfold trimSpaceRight.
  destruct (lastByte (trimRightASCII (String c s) asciiSpace)) as [b|] eqn:Hb; [|reflexivity].
  erewrite (allBytes_lastByte isASCIIByte _ b); [reflexivity| |exact Hb].
  eapply allBytes_substring_of; [apply trimRightASCII_substring_of|exact Hcs].
Qed.

Lemma Trim_brackets (s : string) :
  Trim s "[]" = trimLeftASCII (trimRightASCII s isBracket) isBracket.
Proof. destruct s; reflexivity. Qed.

Lemma canonicalHost_eq (x : string) :
  canonicalHost x = Trim (hostPart (TrimSpace (ToLower x))) "[]".
Proof.
  unfold canonicalHost.
  destruct (String.eqb_spec (TrimSpace (ToLower x)) "") as [->|_]; [reflexivity|].
  unfold hostPart. now destruct (SplitHostPort _) as [e|[host port]].
Qed.

Lemma canonicalHost_substring_of (x : string) :
  substring_of (canonicalHost x) (ToLower x).
Proof.
  rewrite canonicalHost_eq, Trim_brackets.
  eapply substring_of_trans; [apply trimLeftASCII_substring_of|].
  eapply substring_of_trans; [apply trimRightASCII_substring_of|].
  eapply substring_of_trans; [apply hostPart_substring_of|].
  apply TrimSpace_substring_of.
Qed.

(** A lower-case ASCII string without outer brackets is left as it is
    exactly when it has no outer space and does not split as host and
    port. *)
Lemma canonicalHost_fixed_iff (y : string) :
  isASCII y = true -> hasUpper y = false -> hasOuter isBracket y = false ->
  canonicalHost y = y <->
  hasOuter asciiSpace y = false /\ isHostPort y = false.
Proof.
  intros Hascii Hlow Hbr.
  rewrite canonicalHost_eq, Trim_brackets, (ToLower_lower y Hascii Hlow),
    (TrimSpace_ASCII y Hascii).
  set (h := trimRightASCII (trimLeftASCII y asciiSpace) asciiSpace).
  assert (Hh : substring_of h y).
  { eapply substring_of_trans;
      [apply trimRightASCII_substring_of|apply trimLeftASCII_substring_of]. }
  split.
  - intros E.
    assert (Hsub : substring_of y (hostPart h)).
    { rewrite <- E at 1.
      eapply substring_of_trans;
        [apply trimLeftASCII_substring_of|apply trimRightASCII_substring_of]. }
    pose proof (substring_of_length _ _ Hsub) as L1.
    pose proof (substring_of_length _ _ (hostPart_substring_of h)) as L2.
    pose proof (substring_of_length _ _ Hh) as L3.
    assert (h = y) as Ehy by (apply substring_of_full; [exact Hh|lia]).
    split.
    + rewrite <- Ehy. apply hasOuter_trim'.
    + rewrite Ehy in L1. unfold hostPart, isHostPort in *.
      destruct (SplitHostPort y) as [e|[host port]] eqn:Es; [reflexivity|].
      apply SplitHostPort_host in Es as [_ Hlen]. unfold len in Hlen. lia.
  - intros [Hsp Hhp].
    assert (h = y) as -> by (now apply trim_id').
    unfold hostPart, isHostPort in *.
    destruct (SplitHostPort y) as [e|[host port]]; [|discriminate].
    now apply trim_id.
Qed.

(** On ASCII input every step of [canonicalHost] is byte-wise. *)
Lemma canonicalHost_ASCII (x : string) :
  isASCII x = true ->
  canonicalHost x =
  trimLeftASCII
    (trimRightASCII
       (hostPart (trimRightASCII
                    (trimLeftASCII (if hasUpper x then mapBytes lowerByte x else x)
                       asciiSpace) asciiSpace)) isBracket) isBracket.
Proof.
  intros Hx. rewrite canonicalHost_eq, Trim_brackets.
  rewrite (TrimSpace_ASCII _ (isASCII_ToLower x Hx)).
  unfold ToLower. now rewrite Hx.
Qed.

(** The canonical form of an ASCII string is ASCII, lower-case and without
    outer brackets. *)
Lemma canonicalHost_normal (x : string) :
  isASCII x = true ->
  isASCII (canonicalHost x) = true /\
  hasUpper (canonicalHost x) = false /\
  hasOuter isBracket (canonicalHost x) = false.
Proof.
  intros Hx. pose proof (canonicalHost_substring_of x) as Hsub.
  repeat split.
  - eapply allBytes_substring_of; [exact Hsub|now apply isASCII_ToLower].
  - eapply hasUpper_substring_of; [exact Hsub|apply hasUpper_ToLower].
  - rewrite canonicalHost_eq, Trim_brackets. apply hasOuter_trim.
Qed.

(** A string without a colon does not split. *)
Lemma isHostPort_no_colon (h : string) :
  LastIndexByteString h ":" < 0 -> isHostPort h = false.
Proof.
  intros Hi. unfold isHostPort, SplitHostPort.
  now destruct (Z.ltb_spec (LastIndexByteString h ":") 0); [|lia].
Qed.

(** In particular a canonical form with no colon and no outer space is
    stable. *)
Lemma canonicalHost_idempotent_plain (x : string) :
  isASCII x = true ->
  LastIndexByteString (canonicalHost x) ":" < 0 ->
  hasOuter asciiSpace (canonicalHost x) = false ->
  canonicalHost (canonicalHost x) = canonicalHost x.
Proof.
  intros Hx Hcolon Hsp. destruct (canonicalHost_normal x Hx) as (Hascii & Hlow & Hbr).
  apply canonicalHost_fixed_iff; auto using isHostPort_no_colon.
Qed.

(** C1 (as amended): for every ASCII raw host [x], canonicalising the
    canonical form [canonicalHost x] again changes nothing if and only if
    that form neither begins nor ends with a space and does not itself
    split as host and port. *)
Theorem canonicalHost_idempotent_iff (x : string) :
  isASCII x = true ->
  canonicalHost (canonicalHost x) = canonicalHost x <->
  hasOuter asciiSpace (canonicalHost x) = false /\ isHostPort (canonicalHost x) = false.
Proof.
  intros Hx. destruct (canonicalHost_normal x Hx) as (Hascii & Hlow & Hbr).
  now apply canonicalHost_fixed_iff.
Qed.

(** A string of ASCII spaces only has the empty canonical form. *)
Lemma canonicalHost_blank (s : string) :
  allBytes asciiSpace s = true -> canonicalHost s = "".
Proof.
  intros Hs.
  assert (Hsp : forall c, asciiSpace c = true ->
                  isASCIIByte c = true /\ isUpperByte c = false)
    by (intros [[] [] [] [] [] [] [] []]; intros [=]; split; reflexivity).
  assert (Hascii : isASCII s = true /\ hasUpper s = false /\ TrimSpace s = "").
  { unfold isASCII, hasUpper. induction s as [|c s IH]; [now repeat split|].
    simpl in Hs. apply andb_prop in Hs as [Hc Hs].
    destruct (IH Hs) as (IH1 & IH2 & IH3). destruct (Hsp c Hc) as [Ha Hu].
    apply negb_false_iff in IH2.
    simpl. now rewrite Ha, Hu, Hc, IH1, IH2. }
  destruct Hascii as (Ha & Hu & Ht).
  unfold canonicalHost. now rewrite (ToLower_lower s Ha Hu), Ht.
Qed.

(** C2: the six inputs the specification lists are mapped to the outputs
    it states: ["MANGO.COM"] to ["mango.com"], ["mango.com:8080"] to
    ["mango.com"], ["[::1]:8080"] and ["[::1]"] to ["::1"], a string of
    spaces and the empty string to the empty string. *)
Theorem canonicalHost_examples :
  canonicalHost "MANGO.COM" = "mango.com" /\
  canonicalHost "mango.com:8080" = "mango.com" /\
  canonicalHost "[::1]:8080" = "::1" /\
  canonicalHost "[::1]" = "::1" /\
  canonicalHost "   " = "" /\
  canonicalHost "" = "".
Proof. repeat split; reflexivity. Qed.

(** C5 (as amended): the last step removes every leading and every
    trailing ['['] and [']'] from the host left after trimming, lower-casing
    and port removal, whether or not they pair up: that host is the result
    between two runs of brackets, and the result has no outer bracket. *)
Theorem canonicalHost_strips_outer_brackets (x : string) :
  exists l r : string,
    hostPart (TrimSpace (ToLower x)) = l +:+ canonicalHost x +:+ r /\
    allBytes isBracket l = true /\ allBytes isBracket r = true /\
    hasOuter isBracket (canonicalHost x) = false.
Proof.
  rewrite canonicalHost_eq, Trim_brackets.
  destruct (trim_split isBracket (hostPart (TrimSpace (ToLower x)))) as (l & r & E & Hl & Hr).
  exists l, r. repeat split; try assumption. apply hasOuter_trim.
Qed.

(** C6 (as amended): when the trimmed, lower-cased input [h] does not
    split as host and port, the result is [h] with its leading and trailing
    brackets trimmed; it is [h] itself exactly when [h] has no outer
    bracket.  (The function is total: it is a function of the embedding,
    and the indexed reads of the split are in range by
    [SplitHostPort_reads_in_range].) *)
Theorem canonicalHost_fallback (x : string) (e : AddrError) :
  SplitHostPort (TrimSpace (ToLower x)) = inl e ->
  canonicalHost x = Trim (TrimSpace (ToLower x)) "[]" /\
  (canonicalHost x = TrimSpace (ToLower x) <->
   hasOuter isBracket (TrimSpace (ToLower x)) = false).
Proof.
  intros E.
  assert (Hc : canonicalHost x = Trim (TrimSpace (ToLower x)) "[]").
  { rewrite canonicalHost_eq. unfold hostPart. now rewrite E. }
  split; [exact Hc|]. rewrite Hc, Trim_brackets. split.
  - intros <-. apply hasOuter_trim.
  - apply trim_id.
Qed.

(** C7: the output of [canonicalHost] contains none of the letters [A] to
    [Z], whatever the input. *)
Theorem canonicalHost_lowercase (x : string) : hasUpper (canonicalHost x) = false.
Proof.
  eapply hasUpper_substring_of; [apply canonicalHost_substring_of|apply hasUpper_ToLower].
Qed.

(** C10: the output of [canonicalHost] neither begins nor ends with ['[']
    or [']']. *)
Theorem canonicalHost_no_outer_bracket (x : string) :
  hasOuter isBracket (canonicalHost x) = false.
Proof. rewrite canonicalHost_eq, Trim_brackets. apply hasOuter_trim. Qed.

End CanonicalHost.

(** ** The multiplexer of the gateway *)

Lemma splitOn_nonempty (sep : ascii) (s : string) : http.splitOn sep s <> [].
Proof.
  destruct s as [|c s]; [discriminate|]. simpl.
  destruct (Ascii.eqb c sep); [discriminate|].
  destruct (http.splitOn sep s); discriminate.
Qed.

Lemma segmentsOf_nonempty (pieces : list string) :
  pieces <> [] -> http.segmentsOf pieces <> [].
Proof.
  destruct pieces as [|piece pieces]; [congruence|]. intros _. simpl.
  destruct piece; [destruct pieces|]; discriminate.
Qed.

Lemma pathSegments_nonempty (path : string) : path <> "" -> http.pathSegments path <> [].
Proof.
  intros Hp. unfold http.pathSegments.
  destruct (String.eqb_spec path ""); [contradiction|].
  apply segmentsOf_nonempty, splitOn_nonempty.
Qed.

Lemma matchSegments_multi (path : list string) :
  path <> [] -> http.matchSegments [http.multi] path = true.
Proof. destruct path; [congruence|reflexivity]. Qed.

Lemma splitOn_snoc (sep : ascii) (s : string) :
  http.splitOn sep (s +:+ String sep "") = http.splitOn sep s ++ [""].
Proof.
  induction s as [|c s IH].
  - simpl. change ("" +:+ String sep "") with (String sep ""). simpl.
    now rewrite Ascii.eqb_refl.
  - rewrite append_cons. simpl. rewrite IH.
    destruct (Ascii.eqb c sep); [reflexivity|].
    pose proof (splitOn_nonempty sep s).
    now destruct (http.splitOn sep s).
Qed.

Lemma segmentsOf_snoc (pieces : list string) :
  exists segs : list string, http.segmentsOf (pieces ++ [""]) = segs ++ ["/"].
Proof.
  induction pieces as [|piece pieces (segs & IH)]; [now exists []|].
  exists (http.pathUnescape piece :: segs).
  change ((piece :: pieces) ++ [""]) with (piece :: (pieces ++ [""])).
  simpl. rewrite <- IH.
  destruct piece; [|reflexivity].
  now destruct pieces.
Qed.

(** A path that ends in a slash is not the path of ["GET /health"]. *)
Lemma matchSegments_health_slash (path : string) :
  path <> "" ->
  http.matchSegments [http.lit "health"] (http.pathSegments (path +:+ "/")) = false.
Proof.
  intros Hp. unfold http.pathSegments.
  destruct path as [|c q]; [congruence|].
  rewrite append_cons.
  destruct (String.eqb_spec (String c (q +:+ "/")) ""); [discriminate|].
  rewrite slice_tail, splitOn_snoc.
  destruct (segmentsOf_snoc (http.splitOn "/" q)) as (segs & ->).
  destruct segs as [|seg segs]; [reflexivity|].
  simpl. rewrite andb_false_iff. right. now destruct segs.
Qed.

Lemma endsWith_snoc (set : ascii -> bool) (s : string) (c : ascii) :
  endsWith set (s +:+ String c "") = set c.
Proof.
  induction s as [|b s IH]; [reflexivity|].
  rewrite append_cons, endsWith_cons, IH.
  destruct s; reflexivity.
Qed.

Lemma CountSlash_snoc (s : string) : http.CountSlash (s +:+ "/") = http.CountSlash s + 1.
Proof.
  induction s as [|c s IH]; [reflexivity|].
  rewrite append_cons. simpl. rewrite IH. lia.
Qed.

Lemma CountSlash_nonneg (s : string) : 0 <= http.CountSlash s.
Proof. induction s as [|c s IH]; simpl; [lia|]. destruct (Ascii.eqb c "/"); lia. Qed.

Lemma CountSlash_beginsWith (s : string) :
  beginsWith (Ascii.eqb "/") s = true -> 1 <= http.CountSlash s.
Proof.
  destruct s as [|c s]; [discriminate|]. unfold beginsWith. cbn [firstByte http.CountSlash].
  rewrite (Ascii.eqb_sym "/" c). intros ->. pose proof (CountSlash_nonneg s). lia.
Qed.

Lemma beginsWith_append (set : ascii -> bool) (s t : string) :
  beginsWith set s = true -> beginsWith set (s +:+ t) = true.
Proof. destruct s; [discriminate|trivial]. Qed.

(** [http.cleanPath] returns a rooted path. *)
Lemma cleanPath_rooted (p : string) : beginsWith (Ascii.eqb "/") (http.cleanPath p) = true.
Proof.
  unfold http.cleanPath. destruct (String.eqb p ""); [reflexivity|].
  set (p1 := if byteIs p 0 "/" then p else "/" +:+ p).
  assert (H1 : beginsWith (Ascii.eqb "/") p1 = true).
  { subst p1. destruct (byteIs p 0 "/") eqn:E; [|reflexivity].
    destruct p as [|c p]; [discriminate|].
    unfold byteIs in E. change (byteAt (String c p) 0) with (Some c) in E.
    unfold beginsWith. cbn [firstByte]. now rewrite Ascii.eqb_sym. }
  destruct (http.HasSuffixSlash p1 && _); [|reflexivity].
  destruct (_ && _); [exact H1|reflexivity].
Qed.

Section Dispatch.
Context `{!Unicode}.

Let health : http.pattern * apiHandler :=
  ({| http.method := "GET"; http.segments := [http.lit "health"] |}, GET_health).
Let root : http.pattern * apiHandler :=
  ({| http.method := "GET"; http.segments := [http.multi] |}, GET_root).




Lemma matchMethodAndPath_get (m path : string) :
  m = "GET" \/ m = "HEAD" -> path <> "" ->
  http.matchMethodAndPath mux m path =
  Some (if http.matchSegments [http.lit "health"] (http.pathSegments path)
        then health else root).
Proof.
  intros Hm Hp. unfold http.matchMethodAndPath, http.matchPath, mux.
  cbn [List.filter fst http.method http.segments].
  rewrite (matchSegments_multi _ (pathSegments_nonempty path Hp)).
  destruct Hm as [-> | ->];
    destruct (http.matchSegments [http.lit "health"] (http.pathSegments path));
    reflexivity.
Qed.

End Dispatch.

(** ** The handlers of the gateway *)

Section Handlers.
Context `{!Unicode}.

Lemma hostRoutes_empty_key : hostRoutes !! "" = None.
Proof. reflexivity. Qed.

(** C3: the handler of ["GET /"] answers not-found exactly when the
    canonical key is empty or has no entry in the route table; otherwise it
    answers 200 with the canonical key as [host] and the entry as [route]. *)
Theorem rootHandler_resolves (r : http.Request) :
  (rootHandler r = http.NotFound <->
   canonicalHost (http.Host r) = "" \/ hostRoutes !! canonicalHost (http.Host r) = None) /\
  (forall route : string,
     hostRoutes !! canonicalHost (http.Host r) = Some route ->
     rootHandler r =
     {| http.StatusCode := http.StatusOK;
        http.ContentType := Some "application/json";
        http.Body :=
          http.JSON (hostJSON {| Host := canonicalHost (http.Host r); Route := route |}) |}).
Proof.
  unfold rootHandler. split.
  - split.
    + destruct (hostRoutes !! canonicalHost (http.Host r)); [discriminate|now right].
    + intros [E|E]; [rewrite E, hostRoutes_empty_key|rewrite E]; reflexivity.
  - now intros route ->.
Qed.

(** C4: with the route table of the source, [GET /] for host [mango.com]
    is answered 200 with [{"host":"mango.com","route":"site-mango"}], for
    host [APPLE.COM:443] 200 with
    [{"host":"apple.com","route":"site-apple"}], and for host
    [notmango.com] 404. *)
Theorem newHandler_examples (now : string) :
  newHandler now {| http.Method := "GET"; http.Path := "/"; http.Host := "mango.com" |} =
    {| http.StatusCode := 200;
       http.ContentType := Some "application/json";
       http.Body := http.JSON (hostJSON {| Host := "mango.com"; Route := "site-mango" |}) |} /\
  newHandler now {| http.Method := "GET"; http.Path := "/"; http.Host := "APPLE.COM:443" |} =
    {| http.StatusCode := 200;
       http.ContentType := Some "application/json";
       http.Body := http.JSON (hostJSON {| Host := "apple.com"; Route := "site-apple" |}) |} /\
  newHandler now {| http.Method := "GET"; http.Path := "/"; http.Host := "notmango.com" |} =
    http.NotFound /\
  http.StatusCode (http.NotFound (J := apiJSON)) = 404.
Proof. repeat split; reflexivity. Qed.

End Handlers.

(** ** The identity echo service *)

(** C8 (what the code does): the name defaults to [unknown], and a [GET /]
    is answered 200; but the line [This is the {name} application] goes to
    the standard output of the process, and the body of the response is
    empty. *)
Theorem echo_line_not_in_body (environ : gmap string string) (stdout host : string) :
  app.appName (∅ : gmap string string) = "unknown" /\
  app.appName {[ "APP" := "" ]} = "unknown" /\
  app.appName {[ "APP" := "mango" ]} = "mango" /\
  app.main environ stdout {| http.Method := "GET"; http.Path := "/"; http.Host := host |} =
    (stdout +:+ "This is the " +:+ app.appName environ +:+ " application",
     {| http.StatusCode := 200; http.ContentType := None; http.Body := http.Text "" |}).
Proof. repeat split; reflexivity. Qed.

(** ** Hosts as clients send them

    The shapes of a well-formed [Host] value, and what [canonicalHost]
    makes of them. *)

(** A byte of a host name or of a port: ASCII, and neither a space, a colon
    nor a bracket. *)
Definition plainByte (c : ascii) : bool :=
  isASCIIByte c && negb (asciiSpace c) && negb (Ascii.eqb c ":") && negb (isBracket c).

(** A byte of a bracketed literal: as above, colons allowed. *)
Definition literalByte (c : ascii) : bool :=
  isASCIIByte c && negb (asciiSpace c) && negb (isBracket c).

Lemma allBytes_impl (p q : ascii -> bool) (s : string) :
  (forall c, p c = true -> q c = true) -> allBytes p s = true -> allBytes q s = true.
Proof.
  intros Hpq. induction s as [|c s IH]; [reflexivity|]. simpl.
  intros H. apply andb_prop in H as [Hc Hs]. now rewrite (Hpq c Hc), IH.
Qed.

Lemma allBytes_mapBytes (p : ascii -> bool) (f : ascii -> ascii) (s : string) :
  (forall c, p (f c) = p c) -> allBytes p (mapBytes f s) = allBytes p s.
Proof.
  intros Hf. induction s as [|c s IH]; [reflexivity|]. simpl. now rewrite Hf, IH.
Qed.

Lemma mapBytes_append (f : ascii -> ascii) (s t : string) :
  mapBytes f (s +:+ t) = mapBytes f s +:+ mapBytes f t.
Proof.
  induction s as [|c s IH]; [reflexivity|].
  rewrite append_cons. simpl. rewrite IH. now rewrite append_cons.
Qed.

Lemma length_mapBytes (f : ascii -> ascii) (s : string) :
  String.length (mapBytes f s) = String.length s.
Proof. induction s as [|c s IH]; [reflexivity|]. simpl. now rewrite IH. Qed.

Lemma lowerByte_idempotent (c : ascii) : lowerByte (lowerByte c) = lowerByte c.
Proof. destruct c as [[] [] [] [] [] [] [] []]; reflexivity. Qed.

Lemma mapBytes_lowerByte_idempotent (s : string) :
  mapBytes lowerByte (mapBytes lowerByte s) = mapBytes lowerByte s.
Proof.
  induction s as [|c s IH]; [reflexivity|]. simpl. now rewrite lowerByte_idempotent, IH.
Qed.

(** Without an upper-case letter the copying loop of [strings.ToLower]
    would change nothing. *)
Lemma mapBytes_lowerByte_lower (s : string) :
  hasUpper s = false -> mapBytes lowerByte s = s.
Proof.
  unfold hasUpper. intros H. apply negb_false_iff in H.
  induction s as [|c s IH]; [reflexivity|]. simpl in *.
  apply andb_prop in H as [Hc Hs]. apply negb_true_iff in Hc.
  unfold lowerByte at 1. now rewrite Hc, IH.
Qed.

Lemma plainByte_lowerByte (c : ascii) : plainByte (lowerByte c) = plainByte c.
Proof. destruct c as [[] [] [] [] [] [] [] []]; reflexivity. Qed.

Lemma literalByte_lowerByte (c : ascii) : literalByte (lowerByte c) = literalByte c.
Proof. destruct c as [[] [] [] [] [] [] [] []]; reflexivity. Qed.

Lemma asciiSpace_lowerByte (c : ascii) : asciiSpace (lowerByte c) = asciiSpace c.
Proof. destruct c as [[] [] [] [] [] [] [] []]; reflexivity. Qed.

Lemma plainByte_literalByte (c : ascii) : plainByte c = true -> literalByte c = true.
Proof. destruct c as [[] [] [] [] [] [] [] []]; intros [=]; reflexivity. Qed.

Lemma plainByte_no_colon (c : ascii) : plainByte c = true -> negb (Ascii.eqb c ":") = true.
Proof. destruct c as [[] [] [] [] [] [] [] []]; intros [=]; reflexivity. Qed.

Lemma literalByte_ASCII (c : ascii) : literalByte c = true -> isASCIIByte c = true.
Proof. destruct c as [[] [] [] [] [] [] [] []]; intros [=]; reflexivity. Qed.

Lemma literalByte_no_space (c : ascii) : literalByte c = true -> negb (asciiSpace c) = true.
Proof. destruct c as [[] [] [] [] [] [] [] []]; intros [=]; reflexivity. Qed.

Lemma literalByte_no_bracket (c : ascii) : literalByte c = true -> negb (isBracket c) = true.
Proof. destruct c as [[] [] [] [] [] [] [] []]; intros [=]; reflexivity. Qed.

Lemma literalByte_no_open (c : ascii) : literalByte c = true -> negb (Ascii.eqb c "[") = true.
Proof. destruct c as [[] [] [] [] [] [] [] []]; intros [=]; reflexivity. Qed.

Lemma literalByte_no_close (c : ascii) : literalByte c = true -> negb (Ascii.eqb c "]") = true.
Proof. destruct c as [[] [] [] [] [] [] [] []]; intros [=]; reflexivity. Qed.

Lemma beginsWith_allBytes (set : ascii -> bool) (s : string) :
  allBytes (fun c => negb (set c)) s = true -> beginsWith set s = false.
Proof.
  destruct s as [|c s]; [reflexivity|]. unfold beginsWith. simpl.
  intros H. apply andb_prop in H as [Hc _]. now apply negb_true_iff in Hc.
Qed.

Lemma endsWith_allBytes (set : ascii -> bool) (s : string) :
  allBytes (fun c => negb (set c)) s = true -> endsWith set s = false.
Proof.
  unfold endsWith. intros H.
  destruct (lastByte s) as [c|] eqn:E; [|reflexivity].
  apply negb_true_iff. exact (allBytes_lastByte _ s c H E).
Qed.

Lemma hasOuter_allBytes (set : ascii -> bool) (s : string) :
  allBytes (fun c => negb (set c)) s = true -> hasOuter set s = false.
Proof.
  intros H. unfold hasOuter. now rewrite beginsWith_allBytes, endsWith_allBytes.
Qed.

(** *** Searching and slicing a concatenation *)

Lemma free_IndexByteString (s : string) (c : ascii) :
  free c s = true -> IndexByteString s c = -1.
Proof.
  unfold free. induction s as [|b s IH]; [reflexivity|]. simpl.
  intros H. apply andb_prop in H as [Hb Hs]. apply negb_true_iff in Hb.
  now rewrite Hb, (IH Hs).
Qed.

Lemma free_LastIndexByteString (s : string) (c : ascii) :
  free c s = true -> LastIndexByteString s c = -1.
Proof.
  unfold free. induction s as [|b s IH]; [reflexivity|]. simpl.
  intros H. apply andb_prop in H as [Hb Hs]. apply negb_true_iff in Hb.
  now rewrite Hb, (IH Hs).
Qed.

Lemma IndexByteString_append (s t : string) (c : ascii) :
  free c s = true -> IndexByteString (s +:+ String c t) c = len s.
Proof.
  unfold free, len. induction s as [|b s IH].
  - intros _. change ("" +:+ String c t) with (String c t). simpl.
    now rewrite Ascii.eqb_refl.
  - rewrite append_cons. simpl. intros H. apply andb_prop in H as [Hb Hs].
    apply negb_true_iff in Hb. rewrite Hb, (IH Hs).
    destruct (Z.ltb_spec (Z.of_nat (String.length s)) 0); lia.
Qed.

Lemma LastIndexByteString_append (s t : string) (c : ascii) :
  free c t = true -> LastIndexByteString (s +:+ String c t) c = len s.
Proof.
  intros Ht. unfold len. induction s as [|b s IH].
  - change ("" +:+ String c t) with (String c t). simpl.
    now rewrite (free_LastIndexByteString t c Ht), Ascii.eqb_refl.
  - rewrite append_cons. simpl. rewrite IH.
    destruct (Z.leb_spec 0 (Z.of_nat (String.length s))); lia.
Qed.

Lemma substring_append_prefix (s t : string) :
  String.substring 0 (String.length s) (s +:+ t) = s.
Proof.
  induction s as [|c s IH]; [now destruct t|].
  rewrite append_cons. simpl. now rewrite IH.
Qed.

Lemma substring_append_suffix (s t : string) :
  String.substring (String.length s) (String.length t) (s +:+ t) = t.
Proof.
  induction s as [|c s IH]; [apply substring_full|].
  rewrite append_cons. simpl. exact IH.
Qed.

Lemma slice_whole (s : string) : slice s 0 (len s) = s.
Proof. unfold slice, len. rewrite Z.sub_0_r, Nat2Z.id. apply substring_full. Qed.

Lemma slice_prefix (s t : string) : slice (s +:+ t) 0 (len s) = s.
Proof. unfold slice, len. rewrite Z.sub_0_r, Nat2Z.id. apply substring_append_prefix. Qed.

Lemma slice_suffix (s t : string) : slice (s +:+ t) (len s) (len (s +:+ t)) = t.
Proof.
  unfold slice, len. rewrite length_append, Nat2Z.id.
  replace (Z.to_nat (Z.of_nat (String.length s + String.length t) - Z.of_nat (String.length s)))
    with (String.length t) by lia.
  apply substring_append_suffix.
Qed.

Lemma free_append (c : ascii) (s t : string) :
  free c (s +:+ t) = free c s && free c t.
Proof. apply allBytes_append. Qed.

Lemma len_snoc (s : string) (c : ascii) : len (s +:+ String c "") = len s + 1.
Proof. unfold len. rewrite length_append. simpl. lia. Qed.

Lemma slice_after (s t : string) (c : ascii) :
  slice (s +:+ String c t) (len s + 1) (len (s +:+ String c t)) = t.
Proof.
  replace (s +:+ String c t) with ((s +:+ String c "") +:+ t)
    by now rewrite append_assoc.
  rewrite <- (len_snoc s c). apply slice_suffix.
Qed.

Lemma byteIs_0_append (s t : string) (b c : ascii) :
  Ascii.eqb b c = false -> free c s = true -> byteIs (s +:+ String b t) 0 c = false.
Proof.
  intros Hb Hs. destruct s as [|a s]; [exact Hb|].
  rewrite append_cons. change (Ascii.eqb a c = false).
  unfold free in Hs. simpl in Hs. apply andb_prop in Hs as [Ha _].
  now apply negb_true_iff in Ha.
Qed.

(** *** The two shapes that split *)

(** [host:port] *)
Lemma SplitHostPort_plain (h port : string) :
  free ":" h = true -> free "[" h = true -> free "]" h = true ->
  free ":" port = true -> free "[" port = true -> free "]" port = true ->
  SplitHostPort (h +:+ String ":" port) = inr (h, port).
Proof.
  intros Hc Ho Hcl Pc Po Pcl. unfold SplitHostPort. cbv zeta.
  rewrite (LastIndexByteString_append h port ":" Pc).
  destruct (Z.ltb_spec (len h) 0) as [Hneg|_]; [unfold len in Hneg; lia|].
  rewrite (byteIs_0_append h port ":" "[" eq_refl Ho).
  rewrite slice_prefix, (free_IndexByteString h ":" Hc), slice_whole, slice_after.
  assert (Hw : forall c, Ascii.eqb ":" c = false -> free c h = true -> free c port = true ->
                 IndexByteString (h +:+ String ":" port) c = -1).
  { intros c Hne H1 H2. apply free_IndexByteString. rewrite free_append, H1.
    unfold free in *. cbn [allBytes]. now rewrite Hne, H2. }
  now rewrite (Hw "["%char eq_refl Ho Po), (Hw "]"%char eq_refl Hcl Pcl).
Qed.

(** [[literal]:port] *)
Lemma SplitHostPort_bracketed (v port : string) :
  free "[" v = true -> free "]" v = true ->
  free ":" port = true -> free "[" port = true -> free "]" port = true ->
  SplitHostPort (String "[" (v +:+ String "]" (String ":" port))) = inr (v, port).
Proof.
  intros Vo Vc Pc Po Pcl. unfold SplitHostPort. cbv zeta.
  set (w := String "[" (v +:+ String "]" (String ":" port))).
  assert (Ew : w = (String "[" (v +:+ String "]" "")) +:+ String ":" port).
  { subst w. rewrite append_cons. f_equal. now rewrite append_assoc. }
  assert (Hlen : len (String "[" (v +:+ String "]" "")) = len v + 2).
  { unfold len. simpl. rewrite length_append. simpl. lia. }
  assert (Hi : LastIndexByteString w ":" = len v + 2).
  { rewrite Ew, (LastIndexByteString_append _ port ":" Pc). exact Hlen. }
  assert (He : IndexByteString w "]" = len v + 1).
  { subst w. cbn [IndexByteString]. change (Ascii.eqb "[" "]") with false. cbv iota.
    rewrite (IndexByteString_append v (String ":" port) "]" Vc).
    destruct (Z.ltb_spec (len v) 0) as [Hneg|_]; [unfold len in Hneg; lia|reflexivity]. }
  assert (Hw : len w = len v + 3 + len port).
  { rewrite Ew. unfold len in *. rewrite length_append. simpl String.length at 2. lia. }
  rewrite Hi, He.
  destruct (Z.ltb_spec (len v + 2) 0) as [Hneg|_]; [unfold len in Hneg; lia|].
  change (byteIs w 0 "[") with true. cbv iota.
  destruct (Z.ltb_spec (len v + 1) 0) as [Hneg|_]; [unfold len in Hneg; lia|].
  destruct (Z.eqb_spec (len v + 1 + 1) (len w)) as [E|_];
    [rewrite Hw in E; unfold len in E; lia|].
  destruct (Z.eqb_spec (len v + 1 + 1) (len v + 2)) as [_|N]; [|lia].
  assert (Htail : slice w 1 (len w) = v +:+ String "]" (String ":" port))
    by (subst w; apply slice_tail).
  assert (Hhost : slice w 1 (len v + 1) = v).
  { subst w. unfold slice. replace (Z.to_nat (len v + 1 - 1)) with (String.length v)
      by (unfold len; lia).
    change (Z.to_nat 1) with 1%nat. simpl. apply substring_append_prefix. }
  assert (Hafter : slice w (len v + 1 + 1) (len w) = String ":" port).
  { replace (len v + 1 + 1) with (len (String "[" (v +:+ String "]" ""))) by lia.
    rewrite Ew. apply slice_suffix. }
  assert (Hport : slice w (len v + 2 + 1) (len w) = port).
  { rewrite Ew, <- Hlen. apply slice_after. }
  rewrite Htail, Hhost, Hafter, Hport.
  rewrite (free_IndexByteString (v +:+ String "]" (String ":" port)) "[").
  2: { rewrite free_append, Vo. unfold free in *. simpl. exact Po. }
  rewrite (free_IndexByteString (String ":" port) "]").
  2: { unfold free in *. simpl. exact Pcl. }
  reflexivity.
Qed.

(** A bracketed literal without a port does not split. *)
Lemma SplitHostPort_bare (v : string) :
  free "]" v = true -> isHostPort (String "[" (v +:+ String "]" "")) = false.
Proof.
  intros Vc. unfold isHostPort, SplitHostPort. cbv zeta.
  set (w := String "[" (v +:+ String "]" "")).
  assert (He : IndexByteString w "]" = len v + 1).
  { subst w. cbn [IndexByteString]. change (Ascii.eqb "[" "]") with false. cbv iota.
    rewrite (IndexByteString_append v "" "]" Vc).
    destruct (Z.ltb_spec (len v) 0) as [Hneg|_]; [unfold len in Hneg; lia|reflexivity]. }
  assert (Hw : len w = len v + 2).
  { subst w. unfold len. simpl. rewrite length_append. simpl. lia. }
  destruct (_ <? 0); [reflexivity|].
  change (byteIs w 0 "[") with true. cbv iota. rewrite He.
  destruct (Z.ltb_spec (len v + 1) 0) as [Hneg|_]; [reflexivity|].
  destruct (Z.eqb_spec (len v + 1 + 1) (len w)) as [_|N]; [reflexivity|lia].
Qed.

(** *** Trimming a concatenation *)

Section TrimmingAppend.
Variable set : ascii -> bool.

Lemma trimLeftASCII_all (l : string) : allBytes set l = true -> trimLeftASCII l set = "".
Proof.
  induction l as [|c l IH]; [reflexivity|]. simpl.
  intros H. apply andb_prop in H as [Hc Hl]. now rewrite Hc, IH.
Qed.

Lemma trimRightASCII_all (r : string) : allBytes set r = true -> trimRightASCII r set = "".
Proof.
  induction r as [|c r IH]; [reflexivity|]. simpl.
  intros H. apply andb_prop in H as [Hc Hr]. now rewrite (IH Hr), Hc.
Qed.

Lemma trimLeftASCII_append_all (l s : string) :
  allBytes set l = true -> trimLeftASCII (l +:+ s) set = trimLeftASCII s set.
Proof.
  induction l as [|c l IH]; [reflexivity|]. rewrite append_cons. simpl.
  intros H. apply andb_prop in H as [Hc Hl]. now rewrite Hc, IH.
Qed.

Lemma trimRightASCII_append_all (s r : string) :
  allBytes set r = true -> trimRightASCII (s +:+ r) set = trimRightASCII s set.
Proof.
  intros Hr. induction s as [|c s IH]; [now apply trimRightASCII_all|].
  rewrite append_cons. simpl. now rewrite IH.
Qed.

(** Bytes of the set after the string do not survive trimming both ends. *)
Lemma trim_append_all (s r : string) :
  allBytes set r = true ->
  trimRightASCII (trimLeftASCII (s +:+ r) set) set =
  trimRightASCII (trimLeftASCII s set) set.
Proof.
  intros Hr. induction s as [|c s IH].
  - change ("" +:+ r) with r. now rewrite trimLeftASCII_all.
  - rewrite append_cons. cbn [trimLeftASCII]. destruct (set c); [exact IH|].
    rewrite <- append_cons. now apply trimRightASCII_append_all.
Qed.

(** What lies between two runs of the set, and has no outer byte of it,
    is what [strings.Trim] returns. *)
Lemma trim_between (l m r : string) :
  allBytes set l = true -> allBytes set r = true -> hasOuter set m = false ->
  trimLeftASCII (trimRightASCII (l +:+ m +:+ r) set) set = m.
Proof.
  intros Hl Hr Hm. rewrite <- append_assoc, (trimRightASCII_append_all _ r Hr).
  unfold hasOuter in Hm. apply orb_false_elim in Hm as [Hb He].
  destruct m as [|c m].
  - rewrite append_nil_r, (trimRightASCII_all l Hl). reflexivity.
  - assert (Hend : endsWith set (l +:+ String c m) = false).
    { clear -He. induction l as [|b l IH]; [exact He|].
      rewrite append_cons, endsWith_cons.
      destruct (l +:+ String c m) eqn:E; [|exact IH].
      destruct l; discriminate. }
    rewrite (trimRightASCII_id set _ Hend), (trimLeftASCII_append_all l _ Hl).
    now apply trimLeftASCII_id.
Qed.

End TrimmingAppend.

Lemma hostPart_fallback (h : string) : isHostPort h = false -> hostPart h = h.
Proof. unfold isHostPort, hostPart. now destruct (SplitHostPort h) as [e|[host port]]. Qed.

Lemma plain_facts (s : string) :
  allBytes plainByte s = true ->
  isASCII s = true /\ allBytes (fun c => negb (asciiSpace c)) s = true /\
  allBytes (fun c => negb (isBracket c)) s = true /\
  free ":" s = true /\ free "[" s = true /\ free "]" s = true.
Proof.
  intros H. unfold isASCII, free. repeat split; revert H; apply allBytes_impl; intros c Hc;
    first [ apply plainByte_no_colon, Hc
          | apply literalByte_ASCII, plainByte_literalByte, Hc
          | apply literalByte_no_space, plainByte_literalByte, Hc
          | apply literalByte_no_bracket, plainByte_literalByte, Hc
          | apply literalByte_no_open, plainByte_literalByte, Hc
          | apply literalByte_no_close, plainByte_literalByte, Hc ].
Qed.

Lemma literal_facts (s : string) :
  allBytes literalByte s = true ->
  isASCII s = true /\ allBytes (fun c => negb (asciiSpace c)) s = true /\
  allBytes (fun c => negb (isBracket c)) s = true /\
  free "[" s = true /\ free "]" s = true.
Proof.
  intros H. unfold isASCII, free. repeat split; revert H; apply allBytes_impl; intros c Hc;
    first [ apply literalByte_ASCII, Hc
          | apply literalByte_no_space, Hc
          | apply literalByte_no_bracket, Hc
          | apply literalByte_no_open, Hc
          | apply literalByte_no_close, Hc ].
Qed.

Section HostShapes.
Context `{!Unicode}.

(** On ASCII input [strings.ToLower] lowers byte by byte. *)
Lemma ToLower_ASCII (s : string) : isASCII s = true -> ToLower s = mapBytes lowerByte s.
Proof.
  unfold ToLower. intros ->. destruct (hasUpper s) eqn:E; [reflexivity|].
  symmetry. now apply mapBytes_lowerByte_lower.
Qed.

Lemma canonicalHost_bytes (x : string) :
  isASCII x = true ->
  canonicalHost x =
  trimLeftASCII
    (trimRightASCII
       (hostPart (trimRightASCII (trimLeftASCII (mapBytes lowerByte x) asciiSpace)
                    asciiSpace)) isBracket) isBracket.
Proof.
  intros Hx. rewrite canonicalHost_eq, Trim_brackets.
  rewrite (TrimSpace_ASCII _ (isASCII_ToLower x Hx)). now rewrite (ToLower_ASCII x Hx).
Qed.

(** X1: a host name with a port.  For [h] and [port] made of ASCII bytes
    other than spaces, colons and brackets, the canonical form of [h:port]
    is [h] in lower case, and so is the canonical form of [h] alone: the
    port plays no part. *)
Theorem canonicalHost_port_ignored (h port : string) :
  allBytes plainByte h = true -> allBytes plainByte port = true ->
  canonicalHost (h +:+ ":" +:+ port) = mapBytes lowerByte h /\
  canonicalHost h = mapBytes lowerByte h.
Proof.
  intros Hh Hp.
  assert (Hlh : allBytes plainByte (mapBytes lowerByte h) = true)
    by now rewrite (allBytes_mapBytes _ _ _ plainByte_lowerByte).
  assert (Hlp : allBytes plainByte (mapBytes lowerByte port) = true)
    by now rewrite (allBytes_mapBytes _ _ _ plainByte_lowerByte).
  destruct (plain_facts h Hh) as (Ah & _).
  destruct (plain_facts port Hp) as (Ap & _).
  destruct (plain_facts _ Hlh) as (_ & Sh & Bh & Ch & Oh & Clh).
  destruct (plain_facts _ Hlp) as (_ & Sp & _ & Cp & Op & Clp).
  split.
  - change (h +:+ ":" +:+ port) with (h +:+ String ":" port).
    rewrite canonicalHost_bytes.
    2: { unfold isASCII in *. rewrite allBytes_append, Ah. simpl. exact Ap. }
    rewrite mapBytes_append.
    change (mapBytes lowerByte (String ":" port)) with (String ":" (mapBytes lowerByte port)).
    rewrite trim_id'.
    2: { apply hasOuter_allBytes. rewrite allBytes_append, Sh. simpl. exact Sp. }
    unfold hostPart. rewrite SplitHostPort_plain by assumption.
    now apply trim_id, hasOuter_allBytes.
  - rewrite (canonicalHost_bytes h Ah), trim_id' by now apply hasOuter_allBytes.
    rewrite hostPart_fallback.
    + now apply trim_id, hasOuter_allBytes.
    + apply isHostPort_no_colon. rewrite (free_LastIndexByteString _ _ Ch). lia.
Qed.

(** X2: a bracketed literal with a port.  For [v] made of ASCII bytes
    other than spaces and brackets (colons allowed) and a plain [port], the
    canonical form of [[v]:port] is [v] in lower case. *)
Theorem canonicalHost_bracketed_port (v port : string) :
  allBytes literalByte v = true -> allBytes plainByte port = true ->
  canonicalHost ("[" +:+ v +:+ "]:" +:+ port) = mapBytes lowerByte v.
Proof.
  intros Hv Hp.
  assert (Hlv : allBytes literalByte (mapBytes lowerByte v) = true)
    by now rewrite (allBytes_mapBytes _ _ _ literalByte_lowerByte).
  assert (Hlp : allBytes plainByte (mapBytes lowerByte port) = true)
    by now rewrite (allBytes_mapBytes _ _ _ plainByte_lowerByte).
  destruct (literal_facts v Hv) as (Av & _).
  destruct (plain_facts port Hp) as (Ap & _).
  destruct (literal_facts _ Hlv) as (_ & Sv & Bv & Ov & Clv).
  destruct (plain_facts _ Hlp) as (_ & Sp & _ & Cp & Op & Clp).
  change ("[" +:+ v +:+ "]:" +:+ port) with (String "[" (v +:+ String "]" (String ":" port))).
  rewrite canonicalHost_bytes.
  2: { unfold isASCII in *. cbn [allBytes]. rewrite allBytes_append, Av. simpl. exact Ap. }
  cbn [mapBytes]. rewrite mapBytes_append. cbn [mapBytes].
  change (lowerByte "[") with "["%char. change (lowerByte "]") with "]"%char.
  change (lowerByte ":") with ":"%char.
  rewrite trim_id'.
  2: { apply hasOuter_allBytes. cbn [allBytes]. rewrite allBytes_append, Sv. simpl. exact Sp. }
  unfold hostPart. rewrite SplitHostPort_bracketed by assumption.
  now apply trim_id, hasOuter_allBytes.
Qed.

(** X3: a bracketed literal without a port.  For [v] as above, the
    canonical form of [[v]] is [v] in lower case: the split fails, and the
    brackets are trimmed from the whole string. *)
Theorem canonicalHost_bracketed (v : string) :
  allBytes literalByte v = true ->
  canonicalHost ("[" +:+ v +:+ "]") = mapBytes lowerByte v.
Proof.
  intros Hv.
  assert (Hlv : allBytes literalByte (mapBytes lowerByte v) = true)
    by now rewrite (allBytes_mapBytes _ _ _ literalByte_lowerByte).
  destruct (literal_facts v Hv) as (Av & _).
  destruct (literal_facts _ Hlv) as (_ & Sv & Bv & Ov & Clv).
  change ("[" +:+ v +:+ "]") with (String "[" (v +:+ String "]" "")).
  rewrite canonicalHost_bytes.
  2: { unfold isASCII in *. cbn [allBytes]. now rewrite allBytes_append, Av. }
  cbn [mapBytes]. rewrite mapBytes_append. cbn [mapBytes].
  change (lowerByte "[") with "["%char. change (lowerByte "]") with "]"%char.
  rewrite trim_id'.
  2: { apply hasOuter_allBytes. cbn [allBytes]. now rewrite allBytes_append, Sv. }
  rewrite (hostPart_fallback _ (SplitHostPort_bare _ Clv)).
  change (String "[" (mapBytes lowerByte v +:+ String "]" ""))
    with ("[" +:+ mapBytes lowerByte v +:+ "]").
  apply trim_between; [reflexivity..|now apply hasOuter_allBytes].
Qed.

(** X4: the case of ASCII letters plays no part: ASCII hosts with the
    same lower-case form have the same canonical form. *)
Theorem canonicalHost_case_insensitive (x y : string) :
  isASCII x = true -> isASCII y = true ->
  mapBytes lowerByte x = mapBytes lowerByte y ->
  canonicalHost x = canonicalHost y.
Proof. intros Hx Hy E. now rewrite (canonicalHost_bytes x Hx), (canonicalHost_bytes y Hy), E. Qed.

(** X5: ASCII spaces around an ASCII host play no part. *)
Theorem canonicalHost_space_insensitive (l x r : string) :
  allBytes asciiSpace l = true -> allBytes asciiSpace r = true -> isASCII x = true ->
  canonicalHost (l +:+ x +:+ r) = canonicalHost x.
Proof.
  intros Hl Hr Hx.
  assert (Hsp : forall s, allBytes asciiSpace s = true -> isASCII s = true).
  { intros s. apply allBytes_impl.
    intros [[] [] [] [] [] [] [] []]; intros [=]; reflexivity. }
  rewrite canonicalHost_bytes.
  2: { pose proof (Hsp l Hl) as A1. pose proof (Hsp r Hr) as A2.
       unfold isASCII in *. now rewrite !allBytes_append, A1, Hx, A2. }
  rewrite (canonicalHost_bytes x Hx), !mapBytes_append.
  rewrite trimLeftASCII_append_all
    by now rewrite (allBytes_mapBytes _ _ _ asciiSpace_lowerByte).
  rewrite trim_append_all
    by now rewrite (allBytes_mapBytes _ _ _ asciiSpace_lowerByte).
  reflexivity.
Qed.

(** X6: the canonical form of an ASCII host is a contiguous piece of the
    host in lower case: no byte is added or changed on the way, and the
    result is never longer than the input. *)
Theorem canonicalHost_piece_of_input (x : string) :
  isASCII x = true ->
  substring_of (canonicalHost x) (mapBytes lowerByte x) /\
  (String.length (canonicalHost x) <= String.length x)%nat.
Proof.
  intros Hx. pose proof (canonicalHost_substring_of x) as Hsub.
  rewrite (ToLower_ASCII x Hx) in Hsub. split; [exact Hsub|].
  apply substring_of_length in Hsub. now rewrite length_mapBytes in Hsub.
Qed.

End HostShapes.

(** ** The gateway as a whole *)

(** The 200 answer of the handler of ["GET /"]. *)
Definition routed (host route : string) : http.Response apiJSON :=
  {| http.StatusCode := http.StatusOK;
     http.ContentType := Some "application/json";
     http.Body := http.JSON (hostJSON {| Host := host; Route := route |}) |}.

(** The 200 answer of the handler of ["GET /health"]. *)
Definition healthy (now : string) : http.Response apiJSON :=
  {| http.StatusCode := http.StatusOK;
     http.ContentType := Some "application/json";
     http.Body := http.JSON (healthJSON {| Status := "ok"; Time := now |}) |}.

(** A [GET] or [HEAD] request with a clean path. *)
Definition wellFormed (r : http.Request) : bool :=
  (String.eqb (http.Method r) "GET" || String.eqb (http.Method r) "HEAD") &&
  String.eqb (http.cleanPath (http.Path r)) (http.Path r).

(** The path of the request is that of ["GET /health"]. *)
Definition healthPath (r : http.Request) : bool :=
  http.matchSegments [http.lit "health"] (http.pathSegments (http.Path r)).

Lemma hostRoutes_entries (k v : string) :
  hostRoutes !! k = Some v ->
  (k = "mango.com" /\ v = "site-mango") \/ (k = "apple.com" /\ v = "site-apple").
Proof.
  unfold hostRoutes. rewrite lookup_insert_Some, lookup_singleton_Some. intuition auto.
Qed.

Section Whole.
Context `{!Unicode}.


(** Dispatch of a well-formed request. *)
Lemma findHandler_wellFormed (r : http.Request) :
  wellFormed r = true ->
  http.findHandler mux r =
  http.registered (if healthPath r then GET_health else GET_root).
Proof.
  unfold wellFormed, healthPath. intros Hw. apply andb_prop in Hw as [Hm Hclean].
  apply orb_prop in Hm. apply String.eqb_eq in Hclean.
  assert (Hm' : http.Method r = "GET" \/ http.Method r = "HEAD")
    by (destruct Hm as [Hm|Hm]; apply String.eqb_eq in Hm; auto).
  clear Hm. unfold http.findHandler.
  assert (String.eqb (http.Method r) "CONNECT" = false) as ->
    by (destruct Hm' as [-> | ->]; reflexivity).
  rewrite Hclean, String.eqb_refl. cbn [negb].
  pose proof (cleanPath_rooted (http.Path r)) as Hroot. rewrite Hclean in Hroot.
  generalize dependent (http.Path r). intros p _ Hroot.
  assert (Hp : p <> "") by (intros ->; discriminate).
  unfold http.matchOrRedirect. rewrite (matchMethodAndPath_get _ p Hm' Hp).
  destruct (http.matchSegments [http.lit "health"] (http.pathSegments p)); [reflexivity|].
  unfold http.exactMatch at 1. cbn [fst http.lastIsMulti http.segments List.last negb].
  destruct (String.eqb_spec p "") as [|_]; [contradiction|]. cbn [negb andb].
  destruct (http.HasSuffixSlash p) eqn:Hs; cbn [negb andb].
  { now destruct (_ =? _). }
  assert (Hp' : p +:+ "/" <> "") by (destruct p; [congruence|discriminate]).
  rewrite (matchMethodAndPath_get _ _ Hm' Hp'), (matchSegments_health_slash p Hp).
  unfold http.exactMatch. cbn [fst http.lastIsMulti http.segments List.last negb].
  unfold http.HasSuffixSlash. rewrite endsWith_snoc, Ascii.eqb_refl, andb_false_r.
  rewrite CountSlash_snoc. pose proof (CountSlash_beginsWith p Hroot).
  cbn [length]. destruct (Z.eqb_spec (Z.of_nat 1) (http.CountSlash p + 1)); [lia|reflexivity].
Qed.

(** A clean path is rooted: it is not the target [*]. *)
Lemma clean_not_asterisk (p : string) : http.cleanPath p = p -> String.eqb p "*" = false.
Proof.
  intros Hclean. pose proof (cleanPath_rooted p) as Hroot. rewrite Hclean in Hroot.
  destruct (String.eqb_spec p "*") as [->|]; [discriminate|reflexivity].
Qed.

(** What the gateway answers to a well-formed request. *)
Lemma newHandler_wellFormed (now : string) (r : http.Request) :
  wellFormed r = true ->
  newHandler now r = serve now (if healthPath r then GET_health else GET_root) r.
Proof.
  intros Hw. unfold newHandler, http.ServeHTTP, http.RequestURIIsAsterisk.
  rewrite (findHandler_wellFormed r Hw).
  unfold wellFormed in Hw. apply andb_prop in Hw as [_ Hclean].
  apply String.eqb_eq in Hclean. now rewrite (clean_not_asterisk _ Hclean).
Qed.

(** X7: the handler of ["GET /"] answers from the route table only.  It
    answers 200 with [mango.com] and [site-mango] exactly when the canonical
    host is [mango.com], 200 with [apple.com] and [site-apple] exactly when
    it is [apple.com], and not-found exactly when it is neither; no other
    host or route is ever reported. *)
Theorem rootHandler_answers_from_table (r : http.Request) :
  (rootHandler r = routed "mango.com" "site-mango" <->
   canonicalHost (http.Host r) = "mango.com") /\
  (rootHandler r = routed "apple.com" "site-apple" <->
   canonicalHost (http.Host r) = "apple.com") /\
  (rootHandler r = http.NotFound <->
   canonicalHost (http.Host r) <> "mango.com" /\ canonicalHost (http.Host r) <> "apple.com") /\
  (rootHandler r = http.NotFound \/
   rootHandler r = routed "mango.com" "site-mango" \/
   rootHandler r = routed "apple.com" "site-apple").
Proof.
  unfold rootHandler.
  destruct (hostRoutes !! canonicalHost (http.Host r)) as [route|] eqn:E.
  - destruct (hostRoutes_entries _ _ E) as [[-> ->]|[-> ->]];
      repeat split; try discriminate; try tauto;
      intros [=]; congruence.
  - assert (Hm : canonicalHost (http.Host r) <> "mango.com")
      by (intros Ek; rewrite Ek in E; discriminate).
    assert (Ha : canonicalHost (http.Host r) <> "apple.com")
      by (intros Ek; rewrite Ek in E; discriminate).
    repeat split; try discriminate; try tauto.
Qed.





(** X9: the health endpoint does not look at the host: every well-formed
    request whose path is that of ["GET /health"] is answered 200 with
    status [ok] and the time of the answer, whatever its [Host]. *)
Theorem health_ignores_host (now : string) (r : http.Request) :
  wellFormed r = true -> healthPath r = true -> newHandler now r = healthy now.
Proof.
  intros Hw Hh. now rewrite (newHandler_wellFormed now r Hw), Hh.
Qed.

(** X10: routing looks at the host only: two well-formed requests to
    paths other than that of ["GET /health"] whose hosts have the same
    canonical form get the same answer, whatever their methods, their
    paths and the time. *)
Theorem routing_by_canonical_host (now now' : string) (r r' : http.Request) :
  wellFormed r = true -> healthPath r = false ->
  wellFormed r' = true -> healthPath r' = false ->
  canonicalHost (http.Host r) = canonicalHost (http.Host r') ->
  newHandler now r = newHandler now' r'.
Proof.
  intros Hw Hh Hw' Hh' E.
  rewrite (newHandler_wellFormed now r Hw), (newHandler_wellFormed now' r' Hw'), Hh, Hh'.
  cbn [serve]. unfold rootHandler. now rewrite E.
Qed.

(** X12: a request without a usable host is not routed: a well-formed
    request to a path other than that of ["GET /health"] whose [Host] is
    empty, or made of ASCII spaces only, is answered not-found. *)
Theorem blank_host_not_found (now : string) (r : http.Request) :
  wellFormed r = true -> healthPath r = false ->
  allBytes asciiSpace (http.Host r) = true ->
  newHandler now r = http.NotFound.
Proof.
  intros Hw Hh Hb. rewrite (newHandler_wellFormed now r Hw), Hh.
  cbn [serve]. unfold rootHandler.
  now rewrite (canonicalHost_blank _ Hb), hostRoutes_empty_key.
Qed.

Lemma hasOuter_free_brackets (s : string) :
  free "[" s = true -> free "]" s = true -> hasOuter isBracket s = false.
Proof.
  intros Ho Hc. apply hasOuter_allBytes. unfold free in *.
  induction s as [|c s IH]; [reflexivity|]. cbn [allBytes] in *.
  apply andb_prop in Ho as [Ho1 Ho2]. apply andb_prop in Hc as [Hc1 Hc2].
  rewrite (IH Ho2 Hc2), andb_true_r.
  unfold isBracket. cbn [contains].
  rewrite (Ascii.eqb_sym "[" c), (Ascii.eqb_sym "]" c).
  apply negb_true_iff in Ho1, Hc1. now rewrite Ho1, Hc1.
Qed.

(** X13: when the trimmed, lower-cased input splits as host and port, the
    canonical form is the host of the split as it is: it holds no bracket,
    so that the trimming of brackets changes nothing, and the port is
    dropped. *)
Theorem canonicalHost_split (x host port : string) :
  SplitHostPort (TrimSpace (ToLower x)) = inr (host, port) ->
  canonicalHost x = host /\ free "[" host = true /\ free "]" host = true.
Proof.
  intros E. destruct (SplitHostPort_host_free _ _ _ E) as [Ho Hc].
  split; [|now split].
  rewrite canonicalHost_eq, Trim_brackets. unfold hostPart. rewrite E.
  now apply trim_id, hasOuter_free_brackets.
Qed.

End Whole.

(** What [ServeMux.findHandler] can return for the pattern of the echo
    service. *)
Lemma echo_findHandler_cases (r : http.Request) :
  http.findHandler app.mux r = http.registered tt \/
  http.findHandler app.mux r = http.RedirectHandler http.StatusMovedPermanently \/
  (exists allow : list string,
     http.findHandler app.mux r = http.MethodNotAllowedHandler allow) \/
  http.findHandler app.mux r = http.NotFoundHandler.
Proof.
  assert (Hanswer : forall (n : option (http.pattern * unit)) (path : string),
            let h := match n with
                     | Some n => http.registered (snd n)
                     | None =>
                         match http.matchingMethods app.mux path with
                         | [] => http.NotFoundHandler
                         | allowedMethods => http.MethodNotAllowedHandler allowedMethods
                         end
                     end in
            h = http.registered tt \/
            h = http.RedirectHandler http.StatusMovedPermanently \/
            (exists allow : list string, h = http.MethodNotAllowedHandler allow) \/
            h = http.NotFoundHandler).
  { intros n path h. subst h. destruct n as [[pat []]|]; [auto|].
    destruct (http.matchingMethods app.mux path); eauto 6. }
  unfold http.findHandler.
  destruct (String.eqb (http.Method r) "CONNECT").
  - destruct (http.matchOrRedirect app.mux _ _ true) as [n []]; [auto|]. apply Hanswer.
  - destruct (http.matchOrRedirect app.mux _ _ true) as [n []]; [auto|].
    destruct (negb _); [auto|]. apply Hanswer.
Qed.

(** X11: the echo service never answers with its line: for every
    environment and every request the body of the response differs from
    [This is the {name} application]; a 200 response has an empty body and
    no [Content-Type]; and the standard output is either left as it was or
    extended by exactly that line. *)
Theorem echo_never_answers_line (environ : gmap string string) (stdout : string)
    (r : http.Request) :
  http.Body (snd (app.main environ stdout r)) <>
    http.Text ("This is the " +:+ app.appName environ +:+ " application") /\
  (http.StatusCode (snd (app.main environ stdout r)) = 200 ->
   snd (app.main environ stdout r) =
     {| http.StatusCode := 200; http.ContentType := None; http.Body := http.Text "" |}) /\
  (fst (app.main environ stdout r) = stdout \/
   fst (app.main environ stdout r) =
     stdout +:+ "This is the " +:+ app.appName environ +:+ " application").
Proof.
  unfold app.main.
  destruct (http.RequestURIIsAsterisk r).
  { cbn. repeat split; [discriminate|discriminate|now left]. }
  destruct (echo_findHandler_cases r) as [E|[E|[(allow & E)|E]]]; rewrite E; cbn.
  - repeat split; [discriminate|now right].
  - repeat split; [|discriminate|now left].
    destruct (String.eqb (http.Method r) "GET"); discriminate.
  - repeat split; [intros H; vm_compute in H; discriminate|discriminate|now left].
  - repeat split; [intros H; vm_compute in H; discriminate|discriminate|now left].
Qed.

(** ** Closed examples

    The examples below are about ASCII strings, on which the Unicode tables
    play no part ([canonicalHost_tables_irrelevant]).  They are stated with
    the tables that hold nothing beyond ASCII: no rune above [U+007F] is a
    space or has another case. *)

Definition asciiTables : Unicode :=
  {| MapToLower := mapBytes lowerByte;
     TrimFuncSpace := fun s => trimRightASCII (trimLeftASCII s asciiSpace) asciiSpace;
     TrimRightFuncSpace := fun s => trimRightASCII s asciiSpace;
     trimUnicode := fun s cutset =>
       trimLeftASCII (trimRightASCII s (contains cutset)) (contains cutset);
     MapToLower_lower := hasUpper_mapBytes_lowerByte;
     TrimFuncSpace_slice := fun s =>
       substring_of_trans _ _ _
         (trimRightASCII_substring_of asciiSpace (trimLeftASCII s asciiSpace))
         (trimLeftASCII_substring_of asciiSpace s);
     TrimRightFuncSpace_slice := trimRightASCII_substring_of asciiSpace |}.

Lemma canonicalHost_tables_irrelevant (U1 U2 : Unicode) (x : string) :
  isASCII x = true -> @canonicalHost U1 x = @canonicalHost U2 x.
Proof. intros Hx. now rewrite !canonicalHost_ASCII. Qed.

#[local] Existing Instance asciiTables.

(** C1 (counterexample): ["[a:80]"] does not split (there is no port after
    the bracket), so only its brackets are trimmed; the result ["a:80"]
    does split, and canonicalising it gives ["a"]. *)
Lemma canonicalHost_not_idempotent :
  canonicalHost "[a:80]" = "a:80" /\
  canonicalHost "a:80" = "a" /\
  canonicalHost (canonicalHost "[a:80]") <> canonicalHost "[a:80]".
Proof. repeat split; [reflexivity..|discriminate]. Qed.

(** C1 (witness): ["MANGO.COM:8080"]. *)
Lemma canonicalHost_idempotent_iff_witness :
  isASCII "MANGO.COM:8080" = true /\
  (canonicalHost (canonicalHost "MANGO.COM:8080") = canonicalHost "MANGO.COM:8080" <->
   hasOuter asciiSpace (canonicalHost "MANGO.COM:8080") = false /\
   isHostPort (canonicalHost "MANGO.COM:8080") = false).
Proof.
  split; [reflexivity|].
  apply (canonicalHost_idempotent_iff "MANGO.COM:8080"). reflexivity.
Defined.

(** C5 (counterexample): on ["[[a]]"] both pairs of brackets are removed,
    where stripping a single pair would leave ["[a]"]. *)
Lemma canonicalHost_strips_more_than_a_pair :
  canonicalHost "[[a]]" = "a" /\
  stripBracketPair (hostPart (TrimSpace (ToLower "[[a]]"))) = "[a]" /\
  canonicalHost "[[a]]" <> stripBracketPair (hostPart (TrimSpace (ToLower "[[a]]"))).
Proof. repeat split; [reflexivity..|discriminate]. Qed.

(** C6 (counterexample): ["[::1]"] does not split, and the result is not
    the trimmed, lower-cased input but that input without its brackets. *)
Lemma canonicalHost_fallback_changes_input :
  SplitHostPort (TrimSpace (ToLower "[::1]")) =
    inl {| Err := missingPort; Addr := "[::1]" |} /\
  canonicalHost "[::1]" = "::1" /\
  canonicalHost "[::1]" <> TrimSpace (ToLower "[::1]").
Proof. repeat split; [reflexivity..|discriminate]. Qed.

(** C6 (witness): ["[::1]"]. *)
Lemma canonicalHost_fallback_witness :
  SplitHostPort (TrimSpace (ToLower "[::1]")) =
    inl {| Err := missingPort; Addr := "[::1]" |} /\
  canonicalHost "[::1]" = Trim (TrimSpace (ToLower "[::1]")) "[]" /\
  (canonicalHost "[::1]" = TrimSpace (ToLower "[::1]") <->
   hasOuter isBracket (TrimSpace (ToLower "[::1]")) = false).
Proof.
  split; [reflexivity|].
  apply (canonicalHost_fallback "[::1]" {| Err := missingPort; Addr := "[::1]" |}).
  reflexivity.
Defined.


(** X1 (witness): [Mango.com:8080]. *)
Lemma canonicalHost_port_ignored_witness :
  allBytes plainByte "Mango.com" = true /\ allBytes plainByte "8080" = true /\
  canonicalHost ("Mango.com" +:+ ":" +:+ "8080") = mapBytes lowerByte "Mango.com" /\
  canonicalHost "Mango.com" = mapBytes lowerByte "Mango.com".
Proof.
  split; [reflexivity|]. split; [reflexivity|].
  apply (canonicalHost_port_ignored "Mango.com" "8080"); reflexivity.
Defined.

(** X2 (witness): [[FE80::1]:8080]. *)
Lemma canonicalHost_bracketed_port_witness :
  allBytes literalByte "FE80::1" = true /\ allBytes plainByte "8080" = true /\
  canonicalHost ("[" +:+ "FE80::1" +:+ "]:" +:+ "8080") = mapBytes lowerByte "FE80::1".
Proof.
  split; [reflexivity|]. split; [reflexivity|].
  apply (canonicalHost_bracketed_port "FE80::1" "8080"); reflexivity.
Defined.

(** X3 (witness): [[FE80::1]]. *)
Lemma canonicalHost_bracketed_witness :
  allBytes literalByte "FE80::1" = true /\
  canonicalHost ("[" +:+ "FE80::1" +:+ "]") = mapBytes lowerByte "FE80::1".
Proof.
  split; [reflexivity|].
  apply (canonicalHost_bracketed "FE80::1"); reflexivity.
Defined.

(** X4 (witness): [Mango.COM:80] and [mANGO.com:80]. *)
Lemma canonicalHost_case_insensitive_witness :
  isASCII "Mango.COM:80" = true /\ isASCII "mANGO.com:80" = true /\
  mapBytes lowerByte "Mango.COM:80" = mapBytes lowerByte "mANGO.com:80" /\
  canonicalHost "Mango.COM:80" = canonicalHost "mANGO.com:80".
Proof.
  split; [reflexivity|]. split; [reflexivity|]. split; [reflexivity|].
  apply (canonicalHost_case_insensitive "Mango.COM:80" "mANGO.com:80"); reflexivity.
Defined.

(** X5 (witness): [mango.com:80] between two spaces and a space. *)
Lemma canonicalHost_space_insensitive_witness :
  allBytes asciiSpace "  " = true /\ allBytes asciiSpace " " = true /\
  isASCII "mango.com:80" = true /\
  canonicalHost ("  " +:+ "mango.com:80" +:+ " ") = canonicalHost "mango.com:80".
Proof.
  split; [reflexivity|]. split; [reflexivity|]. split; [reflexivity|].
  apply (canonicalHost_space_insensitive "  " "mango.com:80" " "); reflexivity.
Defined.

(** X6 (witness): [[::1]:8080]. *)
Lemma canonicalHost_piece_of_input_witness :
  isASCII "[::1]:8080" = true /\
  substring_of (canonicalHost "[::1]:8080") (mapBytes lowerByte "[::1]:8080") /\
  (String.length (canonicalHost "[::1]:8080") <= String.length "[::1]:8080")%nat.
Proof.
  split; [reflexivity|].
  apply (canonicalHost_piece_of_input "[::1]:8080"). reflexivity.
Defined.

(** X9 (witness): [GET /health] for a host that is not in the table. *)
Lemma health_ignores_host_witness :
  wellFormed {| http.Method := "GET"; http.Path := "/health"; http.Host := "nowhere.example" |}
    = true /\
  healthPath {| http.Method := "GET"; http.Path := "/health"; http.Host := "nowhere.example" |}
    = true /\
  newHandler "2026-01-01T00:00:00Z"
    {| http.Method := "GET"; http.Path := "/health"; http.Host := "nowhere.example" |} =
    healthy "2026-01-01T00:00:00Z".
Proof.
  split; [reflexivity|]. split; [reflexivity|].
  apply (health_ignores_host "2026-01-01T00:00:00Z"
           {| http.Method := "GET"; http.Path := "/health"; http.Host := "nowhere.example" |});
    reflexivity.
Defined.

(** X10 (witness): [GET /a] for [MANGO.COM:80] and [HEAD /b/c] for
    [mango.com]. *)
Lemma routing_by_canonical_host_witness :
  wellFormed {| http.Method := "GET"; http.Path := "/a"; http.Host := "MANGO.COM:80" |} = true /\
  healthPath {| http.Method := "GET"; http.Path := "/a"; http.Host := "MANGO.COM:80" |} = false /\
  wellFormed {| http.Method := "HEAD"; http.Path := "/b/c"; http.Host := "mango.com" |} = true /\
  healthPath {| http.Method := "HEAD"; http.Path := "/b/c"; http.Host := "mango.com" |} = false /\
  canonicalHost "MANGO.COM:80" = canonicalHost "mango.com" /\
  newHandler "" {| http.Method := "GET"; http.Path := "/a"; http.Host := "MANGO.COM:80" |} =
  newHandler "later" {| http.Method := "HEAD"; http.Path := "/b/c"; http.Host := "mango.com" |}.
Proof.
  do 5 (split; [reflexivity|]).
  apply (routing_by_canonical_host "" "later"
           {| http.Method := "GET"; http.Path := "/a"; http.Host := "MANGO.COM:80" |}
           {| http.Method := "HEAD"; http.Path := "/b/c"; http.Host := "mango.com" |});
    reflexivity.
Defined.

(** X12 (witness): [GET /] without a host. *)
Lemma blank_host_not_found_witness :
  wellFormed {| http.Method := "GET"; http.Path := "/"; http.Host := "" |} = true /\
  healthPath {| http.Method := "GET"; http.Path := "/"; http.Host := "" |} = false /\
  allBytes asciiSpace "" = true /\
  newHandler "" {| http.Method := "GET"; http.Path := "/"; http.Host := "" |} = http.NotFound.
Proof.
  do 3 (split; [reflexivity|]).
  apply (blank_host_not_found "" {| http.Method := "GET"; http.Path := "/"; http.Host := "" |});
    reflexivity.
Defined.

(** X13 (witness): [[FE80::1]:8080]. *)
Lemma canonicalHost_split_witness :
  SplitHostPort (TrimSpace (ToLower "[FE80::1]:8080")) = inr ("fe80::1", "8080") /\
  canonicalHost "[FE80::1]:8080" = "fe80::1" /\
  free "[" "fe80::1" = true /\ free "]" "fe80::1" = true.
Proof.
  split; [reflexivity|].
  apply (canonicalHost_split "[FE80::1]:8080" "fe80::1" "8080"). reflexivity.
Defined.
